(** * usbemu: the USB/IP frame normaliser and dumper of [usb.c]

    A shallow embedding of the byte-order normaliser [usbip_ntoh], the
    setup-byte decoding helpers and the dumper [usbip_dump], over the object
    representation of [struct usbip] (a packed record of 65536 bytes). *)

From Stdlib Require Import String Ascii ZArith List Lia Bool.
From Stdlib Require DecimalString HexadecimalString.
From coqutil Require Import Byte Word.LittleEndianList.
From coqutil Require Import Z.bitblast Z.prove_Zeq_bitwise.
From coqutil Require Datatypes.List.
Import ListNotations.

Local Open Scope Z_scope.

(** ** Byte order *)

(** The byte order of the machine the program is compiled for
    ([__BYTE_ORDER] of [<endian.h>]) and the byte order of a wire field. *)
Inductive byte_order : Type := LITTLE_ENDIAN | BIG_ENDIAN.

Definition byte_order_eqb (a b : byte_order) : bool :=
  match a, b with
  | LITTLE_ENDIAN, LITTLE_ENDIAN | BIG_ENDIAN, BIG_ENDIAN => true
  | _, _ => false
  end.

(** The integer a run of bytes denotes, most significant byte first. *)
Definition be_combine (bs : list byte) : Z := le_combine (rev bs).

Definition be_split (n : nat) (v : Z) : list byte := rev (le_split n v).

Definition combine (o : byte_order) (bs : list byte) : Z :=
  match o with
  | LITTLE_ENDIAN => le_combine bs
  | BIG_ENDIAN => be_combine bs
  end.

Definition split (o : byte_order) (n : nat) (v : Z) : list byte :=
  match o with
  | LITTLE_ENDIAN => le_split n v
  | BIG_ENDIAN => be_split n v
  end.

(** [__bswap_constant_32] and [__bswap_constant_16] of [<byteswap.h>]. *)
Definition bswap_32 (x : Z) : Z :=
  Z.lor (Z.lor (Z.lor (Z.shiftr (Z.land x 0xff000000) 24)
                      (Z.shiftr (Z.land x 0x00ff0000) 8))
               (Z.shiftl (Z.land x 0x0000ff00) 8))
        (Z.shiftl (Z.land x 0x000000ff) 24).

Definition bswap_16 (x : Z) : Z :=
  Z.lor (Z.land (Z.shiftr x 8) 0xff) (Z.shiftl (Z.land x 0xff) 8).

(** ** The frame: object representation of [struct usbip] *)

Definition frame : Type := list byte.

(** A scalar member of the packed struct: where it starts and how wide it is. *)
Record field : Type := mkfield { offset : nat; size : nat }.

Definition command   : field := mkfield 0 4.
Definition seqnum    : field := mkfield 4 4.
Definition devid     : field := mkfield 8 4.
Definition direction : field := mkfield 12 4.
Definition endpoint  : field := mkfield 16 4.

(** The anonymous union starts at byte 20; its four arms overlap. *)
Definition cmd_submit_transfer_flags         : field := mkfield 20 4.
Definition cmd_submit_transfer_buffer_length : field := mkfield 24 4.
Definition cmd_submit_start_frame            : field := mkfield 28 4.
Definition cmd_submit_number_of_packets      : field := mkfield 32 4.
Definition cmd_submit_interval               : field := mkfield 36 4.
Definition cmd_submit_setup_bmRequestType    : field := mkfield 40 1.
Definition cmd_submit_setup_bRequest         : field := mkfield 41 1.
Definition cmd_submit_setup_wValue           : field := mkfield 42 2.
Definition cmd_submit_setup_wIndex           : field := mkfield 44 2.
Definition cmd_submit_setup_wLength          : field := mkfield 46 2.

Definition cmd_unlink_seqnum : field := mkfield 20 4.

Definition ret_submit_status              : field := mkfield 20 4.
Definition ret_submit_actual_length       : field := mkfield 24 4.
Definition ret_submit_start_frame         : field := mkfield 28 4.
Definition ret_submit_number_of_packets   : field := mkfield 32 4.
Definition ret_submit_error_count         : field := mkfield 36 4.
Definition ret_submit_setup_bmRequestType : field := mkfield 40 1.
Definition ret_submit_setup_bRequest      : field := mkfield 41 1.
Definition ret_submit_setup_wValue        : field := mkfield 42 2.
Definition ret_submit_setup_wIndex        : field := mkfield 44 2.
Definition ret_submit_setup_wLength       : field := mkfield 46 2.

Definition ret_unlink_status : field := mkfield 20 4.

(** The flexible array members [cmd.submit.data] and [ret.submit.data] start
    where the union ends, which is also where [padding] starts. *)
Definition data_offset : nat := 48.
Definition padding_size : Z := 65488.
Definition sizeof_usbip : Z := 20 + 28 + padding_size.

(** A frame is a whole [struct usbip]. *)
Definition wf_frame (u : frame) : Prop := Z.of_nat (length u) = sizeof_usbip.

(** The bytes a member occupies, and their replacement. *)
Definition bytes (f : field) (u : frame) : list byte :=
  firstn (size f) (skipn (offset f) u).

Definition set_bytes (f : field) (bs : list byte) (u : frame) : frame :=
  List.upds u (offset f) bs.

(** ** Constants *)

Definition USBIP_CMD_SUBMIT : Z := 1.
Definition USBIP_CMD_UNLINK : Z := 2.
Definition USBIP_RET_SUBMIT : Z := 3.
Definition USBIP_RET_UNLINK : Z := 4.

(** [ENOTSUP] of [<errno.h>] on Linux. *)
Definition ENOTSUP : Z := 95.

(** ** Setup-byte helpers *)

(** The macros as the C grammar reads them: [>>] binds tighter than [&], so
    [(rt) & 0b10000000 >> 7] is [(rt) & (0b10000000 >> 7)]. *)
Definition SETUP_DIR (rt : Z) : Z := Z.land rt (Z.shiftr 0x80 7).
Definition SETUP_TYP (rt : Z) : Z := Z.land rt (Z.shiftr 0x60 5).
Definition SETUP_RCP (rt : Z) : Z := Z.land rt (Z.shiftr 0x1f 0).

Definition usbip_setup_dir_str (rt : Z) : string :=
  if negb (SETUP_DIR rt =? 0) then "D2H" else "H2D".

Definition usbip_setup_typ_str (rt : Z) : string :=
  match SETUP_TYP rt with
  | 0 => "standard"
  | 1 => "class"
  | 2 => "vendor"
  | _ => "<reserved>"
  end.

Definition usbip_setup_rcp_str (rt : Z) : string :=
  match SETUP_RCP rt with
  | 0 => "device"
  | 1 => "interface"
  | 2 => "endpoint"
  | 3 => "other"
  | _ => "<reserved>"
  end.

Definition usbip_setup_req_str (req : Z) : string :=
  match req with
  | 0 => "GET_STATUS"
  | 1 => "CLEAR_FEATURE"
  | 3 => "SET_FEATURE"
  | 5 => "SET_ADDRESS"
  | 6 => "GET_DESCRIPTOR"
  | 7 => "SET_DESCRIPTOR"
  | 8 => "GET_CONFIGURATION"
  | 9 => "SET_CONFIGURATION"
  | 10 => "GET_INTERFACE"
  | 11 => "SET_INTERFACE"
  | 12 => "SYNCH_FRAME"
  | _ => "<reserved>"
  end.

(** ** Formatted output *)

(** A stream is modelled by the text written to it so far. *)
Definition FILE : Type := string.

Definition LF : ascii := ascii_of_nat 10.

(** A C string literal as the compiler reads it: the escape [\n] is the
    newline character. *)
Fixpoint cstr (s : string) : string :=
  match s with
  | EmptyString => EmptyString
  | String c r =>
      match r with
      | String c' r' =>
          if ((c =? "\") && (c' =? "n"))%char then String LF (cstr r')
          else String c (cstr r)
      | EmptyString => String c EmptyString
      end
  end.

(** The variadic arguments the program passes: integers and strings. *)
Inductive arg : Type :=
| Int (v : Z)
| Str (s : string).

(** A format string cut into literal characters and conversion
    specifications (the text between [%] and the conversion letter, letter
    included). *)
Inductive token : Type :=
| Lit (c : ascii)
| Spec (s : string).

Definition is_conversion (c : ascii) : bool :=
  ((c =? "u") || (c =? "x") || (c =? "X") || (c =? "s"))%char.

Fixpoint tokens (pending : option string) (fmt : string) : list token :=
  match fmt with
  | EmptyString => []
  | String c r =>
      match pending with
      | None =>
          if (c =? "%")%char then tokens (Some EmptyString) r
          else Lit c :: tokens None r
      | Some d =>
          let d := (d ++ String c EmptyString)%string in
          if is_conversion c then Spec d :: tokens None r
          else tokens (Some d) r
      end
  end.

Definition dec (v : Z) : string :=
  DecimalString.NilZero.string_of_uint (N.to_uint (Z.to_N v)).

Definition hex (v : Z) : string :=
  HexadecimalString.NilZero.string_of_uint (N.to_hex_uint (Z.to_N v)).

Definition toupper (c : ascii) : ascii :=
  if ((nat_of_ascii "a" <=? nat_of_ascii c) && (nat_of_ascii c <=? nat_of_ascii "z"))%nat
  then ascii_of_nat (nat_of_ascii c - 32) else c.

Definition upper (s : string) : string :=
  string_of_list_ascii (map toupper (list_ascii_of_string s)).

(** Zero padding on the left up to a minimum width. *)
Definition pad0 (w : nat) (s : string) : string :=
  (string_of_list_ascii (repeat "0"%char (w - String.length s)) ++ s)%string.

(** One conversion. The integer conversions print an [unsigned int], after
    conversion to [unsigned short] for [h] and to [unsigned char] for [hh]. *)
Definition convert (spec : string) (a : arg) : string :=
  match a with
  | Int v =>
      if (spec =? "u")%string then dec (v mod 2 ^ 32)
      else if (spec =? "hu")%string then dec (v mod 2 ^ 16)
      else if (spec =? "hhu")%string then dec (v mod 2 ^ 8)
      else if (spec =? "08X")%string then upper (pad0 8 (hex (v mod 2 ^ 32)))
      else if (spec =? "02x")%string then pad0 2 (hex (v mod 2 ^ 32))
      else EmptyString
  | Str s =>
      if (spec =? "s")%string then s else EmptyString
  end.

Fixpoint format (ts : list token) (args : list arg) : string :=
  match ts with
  | [] => EmptyString
  | Lit c :: ts => String c (format ts args)
  | Spec s :: ts =>
      match args with
      | a :: args => (convert s a ++ format ts args)%string
      | [] => format ts []
      end
  end.

Definition sprintf (fmt : string) (args : list arg) : string :=
  format (tokens None (cstr fmt)) args.

(** [fprintf(f, fmt, ...)], with [fmt] written as in the C source. *)
Definition fprintf (f : FILE) (fmt : string) (args : list arg) : FILE :=
  (f ++ sprintf fmt args)%string.

Section Host.

(** Everything below is relative to the byte order of the host. *)
Variable host : byte_order.

(** [<endian.h>]: on a little-endian host [be32toh] swaps and [le16toh] is
    the identity, on a big-endian host it is the other way round; [htobe32]
    and [htole16] are defined the same way. *)
Definition be32toh (x : Z) : Z :=
  match host with LITTLE_ENDIAN => bswap_32 x | BIG_ENDIAN => x end.

Definition le16toh (x : Z) : Z :=
  match host with LITTLE_ENDIAN => x | BIG_ENDIAN => bswap_16 x end.

Definition htobe32 (x : Z) : Z :=
  match host with LITTLE_ENDIAN => bswap_32 x | BIG_ENDIAN => x end.

Definition htole16 (x : Z) : Z :=
  match host with LITTLE_ENDIAN => x | BIG_ENDIAN => bswap_16 x end.

(** Reading and assigning a member: the value is held in host order, and an
    assignment keeps the low [8 * size] bits. *)
Definition rd (f : field) (u : frame) : Z := combine host (bytes f u).

Definition wr (f : field) (v : Z) (u : frame) : frame :=
  set_bytes f (split host (size f) v) u.

(** ** The normaliser *)

(** [u->f = g(u->f)]. *)
Definition conv (f : field) (g : Z -> Z) (u : frame) : frame :=
  wr f (g (rd f u)) u.

Definition usbip_ntoh (u : frame) : Z * frame :=
  let u := conv command be32toh u in
  let u := conv seqnum be32toh u in
  let u := conv devid be32toh u in
  let u := conv direction be32toh u in
  let u := conv endpoint be32toh u in
  if rd command u =? USBIP_CMD_SUBMIT then
    let u := conv cmd_submit_transfer_flags be32toh u in
    let u := conv cmd_submit_transfer_buffer_length be32toh u in
    let u := conv cmd_submit_start_frame be32toh u in
    let u := conv cmd_submit_number_of_packets be32toh u in
    let u := conv cmd_submit_interval be32toh u in
    let u := conv cmd_submit_setup_wValue le16toh u in
    let u := conv cmd_submit_setup_wIndex le16toh u in
    let u := conv cmd_submit_setup_wLength le16toh u in
    (0, u)
  else if rd command u =? USBIP_CMD_UNLINK then
    let u := conv cmd_unlink_seqnum be32toh u in
    (0, u)
  else if rd command u =? USBIP_RET_SUBMIT then
    let u := conv ret_submit_status be32toh u in
    let u := conv ret_submit_actual_length be32toh u in
    let u := conv ret_submit_start_frame be32toh u in
    let u := conv ret_submit_number_of_packets be32toh u in
    let u := conv ret_submit_error_count be32toh u in
    let u := conv ret_submit_setup_wValue le16toh u in
    let u := conv ret_submit_setup_wIndex le16toh u in
    let u := conv ret_submit_setup_wLength le16toh u in
    (0, u)
  else if rd command u =? USBIP_RET_UNLINK then
    let u := conv ret_unlink_status be32toh u in
    (0, u)
  else
    (ENOTSUP, u).



(** ** The dumper *)

(** The body of both [for] loops: [n] iterations left, [i] the loop counter.
    [data[i]] is the byte at offset [data_offset + i] of the frame; there is
    no such byte past the end of the object. *)
Fixpoint dump_data (u : frame) (n : nat) (i : Z) (f : FILE) : option FILE :=
  match n with
  | O => Some f
  | S n =>
      match nth_error u (data_offset + Z.to_nat i) with
      | Some b =>
          dump_data u n (i + 1)
            (fprintf f "%s%02x"
               [Str (if i mod 32 =? 0 then cstr "\n    " else ""); Int (byte.unsigned b)])
      | None => None
      end
  end.

Definition usbip_dump (u : frame) (f : FILE) : option FILE :=
  let f := fprintf f "{\n" [] in
  let f := fprintf f "  .command = %u\n"   [Int (rd command u)] in
  let f := fprintf f "  .seqnum = %u\n"    [Int (rd seqnum u)] in
  let f := fprintf f "  .devid = %u\n"     [Int (rd devid u)] in
  let f := fprintf f "  .direction = %u\n" [Int (rd direction u)] in
  let f := fprintf f "  .endpoint = %u\n"  [Int (rd endpoint u)] in
  let r :=
    if rd command u =? USBIP_CMD_SUBMIT then
      let f := fprintf f "  .cmd.submit.transfer_flags = 0x%08X\n"     [Int (rd cmd_submit_transfer_flags u)] in
      let f := fprintf f "  .cmd.submit.transfer_buffer_length = %u\n" [Int (rd cmd_submit_transfer_buffer_length u)] in
      let f := fprintf f "  .cmd.submit.start_frame = %u\n"            [Int (rd cmd_submit_start_frame u)] in
      let f := fprintf f "  .cmd.submit.number_of_packets = %u\n"      [Int (rd cmd_submit_number_of_packets u)] in
      let f := fprintf f "  .cmd.submit.interval = %u\n"               [Int (rd cmd_submit_interval u)] in
      let f := fprintf f "  .cmd.submit.setup.direction = %s\n"        [Str (usbip_setup_dir_str (rd cmd_submit_setup_bmRequestType u))] in
      let f := fprintf f "  .cmd.submit.setup.type = %s\n"             [Str (usbip_setup_typ_str (rd cmd_submit_setup_bmRequestType u))] in
      let f := fprintf f "  .cmd.submit.setup.recipient = %s\n"        [Str (usbip_setup_rcp_str (rd cmd_submit_setup_bmRequestType u))] in
      let f := fprintf f "  .cmd.submit.setup.bRequest = %s\n"         [Str (usbip_setup_req_str (rd cmd_submit_setup_bRequest u))] in
      let f := fprintf f "  .cmd.submit.setup.wValue = %hu\n"          [Int (rd cmd_submit_setup_wValue u)] in
      let f := fprintf f "  .cmd.submit.setup.wIndex = %hu\n"          [Int (rd cmd_submit_setup_wIndex u)] in
      let f := fprintf f "  .cmd.submit.setup.wLength = %hu\n"         [Int (rd cmd_submit_setup_wLength u)] in
      let f := fprintf f "  .cmd.submit.data[] = {" [] in
      match dump_data u (Z.to_nat (rd cmd_submit_transfer_buffer_length u)) 0 f with
      | Some f => Some (fprintf f "\n  }\n" [])
      | None => None
      end
    else if rd command u =? USBIP_CMD_UNLINK then
      Some (fprintf f "  .cmd.unlink.seqnum = %u\n" [Int (rd cmd_unlink_seqnum u)])
    else if rd command u =? USBIP_RET_SUBMIT then
      let f := fprintf f "  .ret.submit.status = %u\n"                 [Int (rd ret_submit_status u)] in
      let f := fprintf f "  .ret.submit.actual_length = %u\n"          [Int (rd ret_submit_actual_length u)] in
      let f := fprintf f "  .ret.submit.start_frame = %u\n"            [Int (rd ret_submit_start_frame u)] in
      let f := fprintf f "  .ret.submit.number_of_packets = %u\n"      [Int (rd ret_submit_number_of_packets u)] in
      let f := fprintf f "  .ret.submit.error_count = %u\n"            [Int (rd ret_submit_error_count u)] in
      let f := fprintf f "  .ret.submit.setup.bmRequestType = %hhu\n"  [Int (rd ret_submit_setup_bmRequestType u)] in
      let f := fprintf f "  .ret.submit.setup.bRequest = %hhu\n"       [Int (rd ret_submit_setup_bRequest u)] in
      let f := fprintf f "  .ret.submit.setup.wValue = %hu\n"          [Int (rd ret_submit_setup_wValue u)] in
      let f := fprintf f "  .ret.submit.setup.wIndex = %hu\n"          [Int (rd ret_submit_setup_wIndex u)] in
      let f := fprintf f "  .ret.submit.setup.wLength = %hu\n"         [Int (rd ret_submit_setup_wLength u)] in
      let f := fprintf f "  .ret.submit.data[] = {" [] in
      match dump_data u (Z.to_nat (rd ret_submit_actual_length u)) 0 f with
      | Some f => Some (fprintf f "\n  }\n" [])
      | None => None
      end
    else if rd command u =? USBIP_RET_UNLINK then
      Some (fprintf f "  .ret.unlink.status = %u\n" [Int (rd ret_unlink_status u)])
    else
      Some f in
  match r with
  | Some f => Some (fprintf f "}\n" [])
  | None => None
  end.

(** ** Receiving a frame *)

(** [struct usbip usbip = {}]. *)
Definition usbip_zero : frame := repeat Byte.x00 (Z.to_nat sizeof_usbip).

(** [recv(socks[1], &usbip, sizeof(usbip), 0)] of [main] once a datagram has
    arrived: its bytes, at most [sizeof(usbip)] of them, overwrite the start
    of the object and the rest of the object keeps its content. *)
Definition recv (dgram : list byte) (u : frame) : frame :=
  List.upds u 0 dgram.

(** What [main] does with a datagram before it dumps the frame: receive it
    into a zeroed frame and normalise that, with no regard to how many bytes
    arrived. *)
Definition decode (dgram : list byte) : Z * frame :=
  usbip_ntoh (recv dgram usbip_zero).

(** ** The sender's side *)

(** Modelled from the spec: the source has no [encode]; section 4.2 asks for
    the serialisation of a message "using the same per-field byte-order rules
    in reverse" and section 4.3 for one field-by-field transform "applied
    identically" in both directions. The kind is read from the host-order
    [command] before that member is converted. *)
Definition usbip_hton (u : frame) : frame :=
  let c := rd command u in
  let u := conv command htobe32 u in
  let u := conv seqnum htobe32 u in
  let u := conv devid htobe32 u in
  let u := conv direction htobe32 u in
  let u := conv endpoint htobe32 u in
  if c =? USBIP_CMD_SUBMIT then
    let u := conv cmd_submit_transfer_flags htobe32 u in
    let u := conv cmd_submit_transfer_buffer_length htobe32 u in
    let u := conv cmd_submit_start_frame htobe32 u in
    let u := conv cmd_submit_number_of_packets htobe32 u in
    let u := conv cmd_submit_interval htobe32 u in
    let u := conv cmd_submit_setup_wValue htole16 u in
    let u := conv cmd_submit_setup_wIndex htole16 u in
    let u := conv cmd_submit_setup_wLength htole16 u in
    u
  else if c =? USBIP_CMD_UNLINK then
    conv cmd_unlink_seqnum htobe32 u
  else if c =? USBIP_RET_SUBMIT then
    let u := conv ret_submit_status htobe32 u in
    let u := conv ret_submit_actual_length htobe32 u in
    let u := conv ret_submit_start_frame htobe32 u in
    let u := conv ret_submit_number_of_packets htobe32 u in
    let u := conv ret_submit_error_count htobe32 u in
    let u := conv ret_submit_setup_wValue htole16 u in
    let u := conv ret_submit_setup_wIndex htole16 u in
    let u := conv ret_submit_setup_wLength htole16 u in
    u
  else if c =? USBIP_RET_UNLINK then
    conv ret_unlink_status htobe32 u
  else
    u.

(** ** Specification vocabulary *)

(** Bytes laid out in order [o], as the host holds them. *)
Definition reorder (o : byte_order) (bs : list byte) : list byte :=
  if byte_order_eqb host o then bs else rev bs.

(** Bring one member from wire order [o] to host order, in place. *)
Definition swab (f : field) (o : byte_order) (u : frame) : frame :=
  set_bytes f (reorder o (bytes f u)) u.

Definition swabs (l : list (field * byte_order)) (u : frame) : frame :=
  fold_left (fun u fo => swab (fst fo) (snd fo) u) l u.

End Host.

(** The rule table: which members a message of a given kind converts, and
    the wire order of each. *)
Definition header_layout : list (field * byte_order) :=
  [ (command, BIG_ENDIAN); (seqnum, BIG_ENDIAN); (devid, BIG_ENDIAN);
    (direction, BIG_ENDIAN); (endpoint, BIG_ENDIAN) ].

Definition cmd_submit_layout : list (field * byte_order) :=
  [ (cmd_submit_transfer_flags, BIG_ENDIAN);
    (cmd_submit_transfer_buffer_length, BIG_ENDIAN);
    (cmd_submit_start_frame, BIG_ENDIAN);
    (cmd_submit_number_of_packets, BIG_ENDIAN);
    (cmd_submit_interval, BIG_ENDIAN);
    (cmd_submit_setup_wValue, LITTLE_ENDIAN);
    (cmd_submit_setup_wIndex, LITTLE_ENDIAN);
    (cmd_submit_setup_wLength, LITTLE_ENDIAN) ].

Definition ret_submit_layout : list (field * byte_order) :=
  [ (ret_submit_status, BIG_ENDIAN);
    (ret_submit_actual_length, BIG_ENDIAN);
    (ret_submit_start_frame, BIG_ENDIAN);
    (ret_submit_number_of_packets, BIG_ENDIAN);
    (ret_submit_error_count, BIG_ENDIAN);
    (ret_submit_setup_wValue, LITTLE_ENDIAN);
    (ret_submit_setup_wIndex, LITTLE_ENDIAN);
    (ret_submit_setup_wLength, LITTLE_ENDIAN) ].

Definition payload_layout (c : Z) : list (field * byte_order) :=
  if c =? USBIP_CMD_SUBMIT then cmd_submit_layout
  else if c =? USBIP_CMD_UNLINK then [ (cmd_unlink_seqnum, BIG_ENDIAN) ]
  else if c =? USBIP_RET_SUBMIT then ret_submit_layout
  else if c =? USBIP_RET_UNLINK then [ (ret_unlink_status, BIG_ENDIAN) ]
  else [].

Definition layout (c : Z) : list (field * byte_order) :=
  header_layout ++ payload_layout c.

Definition known_command (c : Z) : bool :=
  (c =? USBIP_CMD_SUBMIT) || (c =? USBIP_CMD_UNLINK) ||
  (c =? USBIP_RET_SUBMIT) || (c =? USBIP_RET_UNLINK).

(** The command code a frame carries on the wire. *)
Definition wire_command (u : frame) : Z := be_combine (bytes command u).

(** A member lies inside the object. *)
Definition fits (f : field) (u : frame) : Prop :=
  (offset f + size f <= length u)%nat.

(** Two members share no byte. *)
Definition disjointb (f g : field) : bool :=
  ((offset f + size f <=? offset g) || (offset g + size g <=? offset f))%nat.

(** No two members of a table share a byte. *)
Fixpoint separate (l : list (field * byte_order)) : bool :=
  match l with
  | [] => true
  | fo :: r => forallb (fun go => disjointb (fst fo) (fst go)) r && separate r
  end.

(** Every member of a table ends within the first [n] bytes. *)
Definition within (n : nat) (l : list (field * byte_order)) : bool :=
  forallb (fun fo => (offset (fst fo) + size (fst fo) <=? n)%nat) l.

(** Byte [k] belongs to no member of a table. *)
Definition outside (k : nat) (l : list (field * byte_order)) : bool :=
  forallb (fun fo => (k <? offset (fst fo)) || (offset (fst fo) + size (fst fo) <=? k))%nat l.

(** The rows of a hex dump of [bs], the first byte being number [i]. *)
Fixpoint hex_rows (i : Z) (bs : list byte) : string :=
  match bs with
  | [] => EmptyString
  | b :: bs =>
      String.append
        (sprintf "%s%02x"
           [Str (if i mod 32 =? 0 then cstr "\n    " else ""); Int (byte.unsigned b)])
        (hex_rows (i + 1) bs)
  end.

(** The text of the data rows the loops write, if every byte they read
    exists. *)
Fixpoint data_rows (u : frame) (n : nat) (i : Z) : option string :=
  match n with
  | O => Some EmptyString
  | S n =>
      match nth_error u (data_offset + Z.to_nat i) with
      | Some b =>
          option_map
            (String.append
               (sprintf "%s%02x"
                  [Str (if i mod 32 =? 0 then cstr "\n    " else ""); Int (byte.unsigned b)]))
            (data_rows u n (i + 1))
      | None => None
      end
  end.

(** The concatenation of a list of pieces of text. *)
Definition text (l : list string) : string :=
  fold_right String.append EmptyString l.

Section Expected.

Variable host : byte_order.

(** The lines expected for the header and for the fixed members of the two
    submit payloads. *)
Definition header_text (u : frame) : string :=
  text
    [ sprintf "{\n" [];
      sprintf "  .command = %u\n"   [Int (rd host command u)];
      sprintf "  .seqnum = %u\n"    [Int (rd host seqnum u)];
      sprintf "  .devid = %u\n"     [Int (rd host devid u)];
      sprintf "  .direction = %u\n" [Int (rd host direction u)];
      sprintf "  .endpoint = %u\n"  [Int (rd host endpoint u)] ].

Definition cmd_submit_text (u : frame) : string :=
  text
    [ sprintf "  .cmd.submit.transfer_flags = 0x%08X\n"     [Int (rd host cmd_submit_transfer_flags u)];
      sprintf "  .cmd.submit.transfer_buffer_length = %u\n" [Int (rd host cmd_submit_transfer_buffer_length u)];
      sprintf "  .cmd.submit.start_frame = %u\n"            [Int (rd host cmd_submit_start_frame u)];
      sprintf "  .cmd.submit.number_of_packets = %u\n"      [Int (rd host cmd_submit_number_of_packets u)];
      sprintf "  .cmd.submit.interval = %u\n"               [Int (rd host cmd_submit_interval u)];
      sprintf "  .cmd.submit.setup.direction = %s\n"        [Str (usbip_setup_dir_str (rd host cmd_submit_setup_bmRequestType u))];
      sprintf "  .cmd.submit.setup.type = %s\n"             [Str (usbip_setup_typ_str (rd host cmd_submit_setup_bmRequestType u))];
      sprintf "  .cmd.submit.setup.recipient = %s\n"        [Str (usbip_setup_rcp_str (rd host cmd_submit_setup_bmRequestType u))];
      sprintf "  .cmd.submit.setup.bRequest = %s\n"         [Str (usbip_setup_req_str (rd host cmd_submit_setup_bRequest u))];
      sprintf "  .cmd.submit.setup.wValue = %hu\n"          [Int (rd host cmd_submit_setup_wValue u)];
      sprintf "  .cmd.submit.setup.wIndex = %hu\n"          [Int (rd host cmd_submit_setup_wIndex u)];
      sprintf "  .cmd.submit.setup.wLength = %hu\n"         [Int (rd host cmd_submit_setup_wLength u)];
      sprintf "  .cmd.submit.data[] = {" [] ].

Definition ret_submit_text (u : frame) : string :=
  text
    [ sprintf "  .ret.submit.status = %u\n"                 [Int (rd host ret_submit_status u)];
      sprintf "  .ret.submit.actual_length = %u\n"          [Int (rd host ret_submit_actual_length u)];
      sprintf "  .ret.submit.start_frame = %u\n"            [Int (rd host ret_submit_start_frame u)];
      sprintf "  .ret.submit.number_of_packets = %u\n"      [Int (rd host ret_submit_number_of_packets u)];
      sprintf "  .ret.submit.error_count = %u\n"            [Int (rd host ret_submit_error_count u)];
      sprintf "  .ret.submit.setup.bmRequestType = %hhu\n"  [Int (rd host ret_submit_setup_bmRequestType u)];
      sprintf "  .ret.submit.setup.bRequest = %hhu\n"       [Int (rd host ret_submit_setup_bRequest u)];
      sprintf "  .ret.submit.setup.wValue = %hu\n"          [Int (rd host ret_submit_setup_wValue u)];
      sprintf "  .ret.submit.setup.wIndex = %hu\n"          [Int (rd host ret_submit_setup_wIndex u)];
      sprintf "  .ret.submit.setup.wLength = %hu\n"         [Int (rd host ret_submit_setup_wLength u)];
      sprintf "  .ret.submit.data[] = {" [] ].

End Expected.

(** The labels the setup-byte helpers can return. *)
Definition dir_labels : list string := [ "D2H"; "H2D" ]%string.

Definition typ_labels : list string :=
  [ "standard"; "class"; "vendor"; "<reserved>" ]%string.

Definition rcp_labels : list string :=
  [ "device"; "interface"; "endpoint"; "other"; "<reserved>" ]%string.

Definition req_labels : list string :=
  [ "GET_STATUS"; "CLEAR_FEATURE"; "SET_FEATURE"; "SET_ADDRESS";
    "GET_DESCRIPTOR"; "SET_DESCRIPTOR"; "GET_CONFIGURATION";
    "SET_CONFIGURATION"; "GET_INTERFACE"; "SET_INTERFACE"; "SYNCH_FRAME";
    "<reserved>" ]%string.

(** The request codes [usbip_setup_req_str] names. *)
Definition named_requests : list Z := [0; 1; 3; 5; 6; 7; 8; 9; 10; 11; 12].

(** ** Sample datagrams *)

(** A submit command: [command] = 00 00 00 01, [transfer_buffer_length] =
    00 00 00 10, setup packet 80 06 34 12 00 00 40 00, sixteen data bytes. *)
Definition submit_dgram : list byte :=
  map byte.of_Z
    [ 0; 0; 0; 1;  0; 0; 0; 7;  0; 1; 0; 2;  0; 0; 0; 1;  0; 0; 0; 0;
      0; 0; 2; 0;  0; 0; 0; 0x10;  0; 0; 0; 0;  0; 0; 0; 0;  0; 0; 0; 0;
      0x80; 6; 0x34; 0x12; 0; 0; 0x40; 0;
      1; 2; 3; 4; 5; 6; 7; 8; 9; 10; 11; 12; 13; 14; 15; 16 ].

(** An unlink command for sequence number 7, followed by bytes the codec did
    not originate. *)
Definition unlink_dgram : list byte :=
  map byte.of_Z
    [ 0; 0; 0; 2;  0; 0; 0; 8;  0; 1; 0; 2;  0; 0; 0; 0;  0; 0; 0; 0;
      0; 0; 0; 7;  0xde; 0xad; 0xbe; 0xef;  1; 2; 3; 4 ].

(** A frame whose command code is 99. *)
Definition unknown_dgram : list byte :=
  map byte.of_Z
    [ 0; 0; 0; 99;  0; 0; 0; 9;  0; 1; 0; 2;  0; 0; 0; 1;  0; 0; 0; 3;
      0x11; 0x22; 0x33; 0x44 ].

(** A submit reply that declares [actual_length] = 64 and carries ten bytes
    after the fixed part. *)
Definition short_reply : list byte :=
  map byte.of_Z
    [ 0; 0; 0; 3;  0; 0; 0; 7;  0; 1; 0; 2;  0; 0; 0; 0;  0; 0; 0; 0;
      0; 0; 0; 0;  0; 0; 0; 0x40;  0; 0; 0; 0;  0; 0; 0; 0;  0; 0; 0; 0;
      0x80; 6; 0x34; 0x12; 0; 0; 0x40; 0;
      1; 2; 3; 4; 5; 6; 7; 8; 9; 0xab ].

(** The datagrams once received into a zeroed [struct usbip]. *)
Definition submit_frame : frame := recv submit_dgram usbip_zero.
Definition unlink_frame : frame := recv unlink_dgram usbip_zero.
Definition unknown_frame : frame := recv unknown_dgram usbip_zero.

(** The text [usbip_dump] produces for [short_reply] once it has been
    received and normalised. *)
Definition short_reply_dump : string :=
  text
    [ cstr "{\n";
      cstr "  .command = 3\n";
      cstr "  .seqnum = 7\n";
      cstr "  .devid = 65538\n";
      cstr "  .direction = 0\n";
      cstr "  .endpoint = 0\n";
      cstr "  .ret.submit.status = 0\n";
      cstr "  .ret.submit.actual_length = 64\n";
      cstr "  .ret.submit.start_frame = 0\n";
      cstr "  .ret.submit.number_of_packets = 0\n";
      cstr "  .ret.submit.error_count = 0\n";
      cstr "  .ret.submit.setup.bmRequestType = 128\n";
      cstr "  .ret.submit.setup.bRequest = 6\n";
      cstr "  .ret.submit.setup.wValue = 4660\n";
      cstr "  .ret.submit.setup.wIndex = 0\n";
      cstr "  .ret.submit.setup.wLength = 64\n";
      cstr "  .ret.submit.data[] = {\n";
      cstr "    010203040506070809ab00000000000000000000000000000000000000000000\n";
      cstr "    0000000000000000000000000000000000000000000000000000000000000000\n";
      cstr "  }\n";
      cstr "}\n" ].

(** ** Further vocabulary *)

(** No member of one table shares a byte with a member of the other. *)
Definition apart (l l' : list (field * byte_order)) : bool :=
  forallb (fun fo => forallb (fun go => disjointb (fst fo) (fst go)) l') l.

(** Byte [k] belongs to no member of a table whose wire order differs from
    the order of the host. *)
Definition untouched (host : byte_order) (k : nat) (l : list (field * byte_order)) : bool :=
  forallb
    (fun fo =>
       byte_order_eqb host (snd fo)
       || (k <? offset (fst fo))%nat
       || (offset (fst fo) + size (fst fo) <=? k)%nat)
    l.

(** The members [usbip_dump] prints for a given command code. *)
Definition printed_fields (c : Z) : list field :=
  [command; seqnum; devid; direction; endpoint] ++
  (if c =? USBIP_CMD_SUBMIT then
     [ cmd_submit_transfer_flags; cmd_submit_transfer_buffer_length;
       cmd_submit_start_frame; cmd_submit_number_of_packets;
       cmd_submit_interval; cmd_submit_setup_bmRequestType;
       cmd_submit_setup_bRequest; cmd_submit_setup_wValue;
       cmd_submit_setup_wIndex; cmd_submit_setup_wLength ]
   else if c =? USBIP_CMD_UNLINK then [cmd_unlink_seqnum]
   else if c =? USBIP_RET_SUBMIT then
     [ ret_submit_status; ret_submit_actual_length; ret_submit_start_frame;
       ret_submit_number_of_packets; ret_submit_error_count;
       ret_submit_setup_bmRequestType; ret_submit_setup_bRequest;
       ret_submit_setup_wValue; ret_submit_setup_wIndex;
       ret_submit_setup_wLength ]
   else if c =? USBIP_RET_UNLINK then [ret_unlink_status]
   else []).

(** The bound of the data loop [usbip_dump] runs for a frame: the declared
    length of a submit command or reply, nothing for the other kinds. *)
Definition declared_length (host : byte_order) (u : frame) : Z :=
  if rd host command u =? USBIP_CMD_SUBMIT then
    rd host cmd_submit_transfer_buffer_length u
  else if rd host command u =? USBIP_RET_SUBMIT then
    rd host ret_submit_actual_length u
  else 0.

(** The last three calls of [main]: receive a datagram into the zeroed
    frame, normalise it without looking at the status, dump it to the
    stream. *)
Definition main_report (host : byte_order) (dgram : list byte) (f : FILE) : option FILE :=
  usbip_dump host (snd (decode host dgram)) f.

(** A reply like [short_reply] with other bytes after the sixty-four it
    declares. *)
Definition long_reply : list byte :=
  short_reply ++ repeat Byte.x00 54 ++ map byte.of_Z [0xde; 0xad; 0xbe; 0xef].


(** * Properties *)

(** ** Byte order arithmetic *)

Lemma bswap_32_le_combine (a b c d : byte) :
  bswap_32 (le_combine [a; b; c; d]) = le_combine [d; c; b; a].
Proof.
  unfold bswap_32, le_combine. rewrite !Z.shiftl_0_l, !Z.lor_0_r.
  rewrite <- (byte.wrap_unsigned a), <- (byte.wrap_unsigned b),
          <- (byte.wrap_unsigned c), <- (byte.wrap_unsigned d).
  unfold byte.wrap.
  generalize (byte.unsigned a) (byte.unsigned b) (byte.unsigned c) (byte.unsigned d).
  intros.
  change 0xff000000 with (Z.shiftl (Z.ones 8) 24).
  change 0x00ff0000 with (Z.shiftl (Z.ones 8) 16).
  change 0x0000ff00 with (Z.shiftl (Z.ones 8) 8).
  change 0x000000ff with (Z.ones 8).
  rewrite <- !Z.land_ones by lia.
  prove_Zeq_bitwise.
Qed.

Lemma bswap_16_le_combine (a b : byte) :
  bswap_16 (le_combine [a; b]) = le_combine [b; a].
Proof.
  unfold bswap_16, le_combine. rewrite !Z.shiftl_0_l, !Z.lor_0_r.
  rewrite <- (byte.wrap_unsigned a), <- (byte.wrap_unsigned b).
  unfold byte.wrap.
  generalize (byte.unsigned a) (byte.unsigned b). intros.
  change 0xff with (Z.ones 8).
  rewrite <- !Z.land_ones by lia.
  prove_Zeq_bitwise.
Qed.

Lemma be_split_combine (bs : list byte) :
  be_split (length bs) (be_combine bs) = bs.
Proof.
  unfold be_split, be_combine.
  rewrite <- (length_rev bs), split_le_combine. apply rev_involutive.
Qed.

Section ByteOrder.

Variable host : byte_order.

Lemma length_reorder o bs : length (reorder host o bs) = length bs.
Proof. unfold reorder. destruct (byte_order_eqb host o); [reflexivity | apply length_rev]. Qed.

Lemma reorder_involutive o bs : reorder host o (reorder host o bs) = bs.
Proof. unfold reorder. destruct (byte_order_eqb host o); [reflexivity | apply rev_involutive]. Qed.

(** Reading, in host order, bytes that were brought from order [o] to host
    order gives the integer they denote in order [o]. *)
Lemma combine_reorder o bs : combine host (reorder host o bs) = combine o bs.
Proof.
  unfold reorder, combine, be_combine.
  destruct host, o; cbn [byte_order_eqb]; rewrite ?rev_involutive; reflexivity.
Qed.

Lemma split_be32toh bs :
  length bs = 4%nat ->
  split host 4 (be32toh host (combine host bs)) = reorder host BIG_ENDIAN bs.
Proof.
  intros H.
  destruct bs as [|a [|b [|c [|d [|]]]]]; try discriminate H.
  unfold reorder, be32toh. destruct host; cbn [byte_order_eqb split combine].
  - rewrite bswap_32_le_combine. apply (split_le_combine [d; c; b; a]).
  - apply (be_split_combine [a; b; c; d]).
Qed.

Lemma split_le16toh bs :
  length bs = 2%nat ->
  split host 2 (le16toh host (combine host bs)) = reorder host LITTLE_ENDIAN bs.
Proof.
  intros H.
  destruct bs as [|a [|b [|]]]; try discriminate H.
  unfold reorder, le16toh. destruct host; cbn [byte_order_eqb split combine].
  - apply (split_le_combine [a; b]).
  - unfold be_combine, be_split. cbn [rev app].
    rewrite bswap_16_le_combine. now rewrite (split_le_combine' [a; b] 2 eq_refl).
Qed.

End ByteOrder.

(** ** Members of a frame *)

Ltac cases_nat :=
  repeat match goal with
  | |- context [(?a <? ?b)%nat] => destruct (Nat.ltb_spec a b)
  | |- context [(?a <=? ?b)%nat] => destruct (Nat.leb_spec a b)
  end; cbn [andb orb negb].

Ltac absent :=
  match goal with
  | |- nth_error _ _ = None => apply nth_error_None; lia
  | |- None = nth_error _ _ => symmetry; apply nth_error_None; lia
  | |- nth_error ?l _ = nth_error ?l _ =>
      transitivity (@None byte); [| symmetry]; apply nth_error_None; lia
  end.

Lemma nth_error_upds (l xs : list byte) (i k : nat) :
  nth_error (List.upds l i xs) k =
  if ((i <=? k) && (k <? i + length xs) && (k <? length l))%nat
  then nth_error xs (k - i) else nth_error l k.
Proof.
  unfold List.upds.
  rewrite !nth_error_app, !nth_error_firstn, nth_error_skipn, !length_firstn.
  cases_nat; try lia; try reflexivity; try absent; try (f_equal; lia).
Qed.

Lemma nth_error_bytes f (u : frame) k :
  nth_error (bytes f u) k =
  if (k <? size f)%nat then nth_error u (offset f + k) else None.
Proof. unfold bytes. now rewrite nth_error_firstn, nth_error_skipn. Qed.

Lemma length_bytes f (u : frame) : fits f u -> length (bytes f u) = size f.
Proof. unfold fits, bytes. rewrite length_firstn, length_skipn. lia. Qed.

Lemma length_set_bytes f bs (u : frame) : length (set_bytes f bs u) = length u.
Proof. apply List.upds_length. Qed.

Lemma nth_error_set_bytes f bs (u : frame) k :
  length bs = size f ->
  nth_error (set_bytes f bs u) k =
  if ((offset f <=? k) && (k <? offset f + size f) && (k <? length u))%nat
  then nth_error bs (k - offset f) else nth_error u k.
Proof. intros <-. apply nth_error_upds. Qed.

Lemma bytes_set_bytes_same f bs (u : frame) :
  fits f u -> length bs = size f -> bytes f (set_bytes f bs u) = bs.
Proof.
  unfold fits. intros Hf Hl. apply nth_error_ext. intros k.
  rewrite nth_error_bytes, nth_error_set_bytes by assumption.
  cases_nat; try lia; try absent; f_equal; lia.
Qed.

Lemma bytes_set_bytes_other f g bs (u : frame) :
  disjointb f g = true -> length bs = size f ->
  bytes g (set_bytes f bs u) = bytes g u.
Proof.
  unfold disjointb. intros Hd Hl. apply nth_error_ext. intros k.
  rewrite !nth_error_bytes, nth_error_set_bytes by assumption.
  revert Hd. cases_nat; intros Hd; try discriminate Hd; try lia; reflexivity.
Qed.

Lemma set_bytes_bytes f (u : frame) : set_bytes f (bytes f u) u = u.
Proof.
  apply nth_error_ext. intros k. unfold set_bytes.
  rewrite nth_error_upds, nth_error_bytes.
  unfold bytes. rewrite length_firstn, length_skipn.
  cases_nat; try lia; try reflexivity; try absent; f_equal; lia.
Qed.

Lemma set_bytes_set_bytes f bs bs' (u : frame) :
  length bs = length bs' ->
  set_bytes f bs (set_bytes f bs' u) = set_bytes f bs u.
Proof.
  intros Hl. apply nth_error_ext. intros k. unfold set_bytes.
  rewrite !nth_error_upds, List.upds_length, <- Hl.
  cases_nat; try lia; reflexivity.
Qed.

Lemma set_bytes_comm f g bs bs' (u : frame) :
  disjointb f g = true -> length bs = size f -> length bs' = size g ->
  set_bytes f bs (set_bytes g bs' u) = set_bytes g bs' (set_bytes f bs u).
Proof.
  unfold disjointb, set_bytes. intros Hd Hl Hl'.
  apply List.upds_comm. rewrite Hl, Hl'.
  revert Hd. cases_nat; intros Hd; try discriminate Hd; lia.
Qed.

Lemma disjointb_sym f g : disjointb f g = disjointb g f.
Proof. unfold disjointb. apply orb_comm. Qed.

Lemma within_fits n l (u : frame) fo :
  within n l = true -> (n <= length u)%nat -> In fo l -> fits (fst fo) u.
Proof.
  unfold within, fits. intros Hw Hn Hin.
  rewrite forallb_forall in Hw. apply Hw, Nat.leb_le in Hin. lia.
Qed.

(** ** Conversion of one member, and of a table of members *)

Section Conversion.

Variable host : byte_order.

Lemma length_swab f o u : length (swab host f o u) = length u.
Proof. apply length_set_bytes. Qed.

Lemma fits_swab f g o u : fits f (swab host g o u) <-> fits f u.
Proof. unfold fits. now rewrite length_swab. Qed.

Lemma bytes_swab_same f o u :
  fits f u -> bytes f (swab host f o u) = reorder host o (bytes f u).
Proof.
  intros Hf. unfold swab. apply bytes_set_bytes_same; [assumption |].
  rewrite length_reorder. now apply length_bytes.
Qed.

Lemma bytes_swab_other f g o u :
  disjointb f g = true -> fits f u ->
  bytes g (swab host f o u) = bytes g u.
Proof.
  intros Hd Hf. unfold swab. apply bytes_set_bytes_other; [assumption |].
  rewrite length_reorder. now apply length_bytes.
Qed.

Lemma nth_error_swab_outside f o u k :
  ((k <? offset f) || (offset f + size f <=? k))%nat = true -> fits f u ->
  nth_error (swab host f o u) k = nth_error u k.
Proof.
  intros Hk Hf. unfold swab.
  rewrite nth_error_set_bytes by (rewrite length_reorder; now apply length_bytes).
  revert Hk. cases_nat; intros Hk; try discriminate Hk; try lia; reflexivity.
Qed.

Lemma swab_involutive f o u : fits f u -> swab host f o (swab host f o u) = u.
Proof.
  intros Hf. unfold swab at 1. rewrite bytes_swab_same by assumption.
  rewrite reorder_involutive. unfold swab.
  rewrite set_bytes_set_bytes by (now rewrite length_reorder).
  apply set_bytes_bytes.
Qed.

Lemma swab_comm f g o o' u :
  disjointb f g = true -> fits f u -> fits g u ->
  swab host f o (swab host g o' u) = swab host g o' (swab host f o u).
Proof.
  intros Hd Hf Hg.
  unfold swab at 1 3.
  rewrite (bytes_swab_other g f) by (rewrite 1?disjointb_sym; assumption).
  rewrite (bytes_swab_other f g) by assumption.
  unfold swab.
  apply set_bytes_comm; rewrite ?length_reorder; auto using length_bytes.
Qed.

Lemma rd_swab f o u :
  fits f u -> rd host f (swab host f o u) = combine o (bytes f u).
Proof.
  intros Hf. unfold rd. rewrite bytes_swab_same by assumption.
  apply combine_reorder.
Qed.

Lemma conv_be32toh f u :
  size f = 4%nat -> fits f u ->
  conv host f (be32toh host) u = swab host f BIG_ENDIAN u.
Proof.
  intros Hs Hf. unfold conv, wr, rd, swab. rewrite Hs.
  rewrite split_be32toh; [reflexivity |].
  rewrite <- Hs. now apply length_bytes.
Qed.

Lemma conv_le16toh f u :
  size f = 2%nat -> fits f u ->
  conv host f (le16toh host) u = swab host f LITTLE_ENDIAN u.
Proof.
  intros Hs Hf. unfold conv, wr, rd, swab. rewrite Hs.
  rewrite split_le16toh; [reflexivity |].
  rewrite <- Hs. now apply length_bytes.
Qed.

Lemma swabs_cons fo l u :
  swabs host (fo :: l) u = swabs host l (swab host (fst fo) (snd fo) u).
Proof. reflexivity. Qed.

Lemma swabs_app l l' u : swabs host (l ++ l') u = swabs host l' (swabs host l u).
Proof. apply fold_left_app. Qed.

Lemma length_swabs l u : length (swabs host l u) = length u.
Proof.
  revert u. induction l as [|fo l IH]; intros u; [reflexivity |].
  rewrite swabs_cons, IH. apply length_swab.
Qed.

Section Table.

Variable n : nat.

Lemma bytes_swabs_other g l u :
  forallb (fun fo => disjointb g (fst fo)) l = true ->
  within n l = true -> (n <= length u)%nat ->
  bytes g (swabs host l u) = bytes g u.
Proof.
  revert u. induction l as [|fo l IH]; intros u Hd Hw Hn; [reflexivity |].
  cbn [forallb] in Hd. apply andb_prop in Hd as [Hd Hd'].
  pose proof (within_fits n _ u fo Hw Hn (or_introl eq_refl)) as Hf.
  cbn [within forallb] in Hw. apply andb_prop in Hw as [_ Hw].
  rewrite swabs_cons, IH by (rewrite ?length_swab; assumption).
  apply bytes_swab_other; [now rewrite disjointb_sym | assumption].
Qed.

Lemma swab_swabs_comm f o l u :
  forallb (fun fo => disjointb f (fst fo)) l = true ->
  within n l = true -> (n <= length u)%nat -> fits f u ->
  swab host f o (swabs host l u) = swabs host l (swab host f o u).
Proof.
  revert u. induction l as [|fo l IH]; intros u Hd Hw Hn Hf; [reflexivity |].
  cbn [forallb] in Hd. apply andb_prop in Hd as [Hd Hd'].
  pose proof (within_fits n _ u fo Hw Hn (or_introl eq_refl)) as Hfo.
  cbn [within forallb] in Hw. apply andb_prop in Hw as [_ Hw].
  rewrite !swabs_cons, IH
    by (rewrite ?length_swab; try apply fits_swab; assumption).
  f_equal. now apply swab_comm.
Qed.

Lemma bytes_swabs_in f o l u :
  separate l = true -> within n l = true -> (n <= length u)%nat ->
  In (f, o) l ->
  bytes f (swabs host l u) = reorder host o (bytes f u).
Proof.
  revert u. induction l as [|fo l IH]; intros u Hs Hw Hn Hin; [contradiction |].
  cbn [separate] in Hs. apply andb_prop in Hs as [Hd Hs].
  pose proof (within_fits n _ u fo Hw Hn (or_introl eq_refl)) as Hfo.
  cbn [within forallb] in Hw. apply andb_prop in Hw as [_ Hw].
  rewrite swabs_cons. destruct Hin as [-> | Hin].
  - cbn [fst snd] in *.
    rewrite bytes_swabs_other by (rewrite ?length_swab; assumption).
    now apply bytes_swab_same.
  - rewrite IH by (rewrite ?length_swab; assumption).
    f_equal. apply bytes_swab_other; [| assumption].
    rewrite forallb_forall in Hd. apply (Hd _ Hin).
Qed.

Lemma nth_error_swabs_outside k l u :
  outside k l = true -> within n l = true -> (n <= length u)%nat ->
  nth_error (swabs host l u) k = nth_error u k.
Proof.
  revert u. induction l as [|fo l IH]; intros u Ho Hw Hn; [reflexivity |].
  cbn [outside forallb] in Ho. apply andb_prop in Ho as [Ho Ho'].
  pose proof (within_fits n _ u fo Hw Hn (or_introl eq_refl)) as Hfo.
  cbn [within forallb] in Hw. apply andb_prop in Hw as [_ Hw].
  rewrite swabs_cons, IH by (rewrite ?length_swab; assumption).
  now apply nth_error_swab_outside.
Qed.

(** Converting the members of a table twice gives the frame back. *)
Lemma swabs_involutive l u :
  separate l = true -> within n l = true -> (n <= length u)%nat ->
  swabs host l (swabs host l u) = u.
Proof.
  revert u. induction l as [|fo l IH]; intros u Hs Hw Hn; [reflexivity |].
  cbn [separate] in Hs. apply andb_prop in Hs as [Hd Hs].
  pose proof (within_fits n _ u fo Hw Hn (or_introl eq_refl)) as Hfo.
  cbn [within forallb] in Hw. apply andb_prop in Hw as [_ Hw].
  rewrite !swabs_cons.
  rewrite swab_swabs_comm
    by (rewrite ?length_swab; try apply fits_swab; assumption).
  rewrite swab_involutive by assumption.
  now apply IH.
Qed.

End Table.

End Conversion.

(** ** The normaliser follows the rule table *)

Lemma wf_frame_length u : wf_frame u -> (48 <= length u)%nat.
Proof. unfold wf_frame, sizeof_usbip, padding_size. lia. Qed.

Lemma known_command_cases c :
  known_command c = true <->
  c = USBIP_CMD_SUBMIT \/ c = USBIP_CMD_UNLINK \/ c = USBIP_RET_SUBMIT \/ c = USBIP_RET_UNLINK.
Proof.
  unfold known_command. rewrite !orb_true_iff, !Z.eqb_eq. tauto.
Qed.

Lemma layout_separate c : separate (layout c) = true.
Proof.
  unfold layout, payload_layout.
  repeat match goal with |- context [if ?b then _ else _] => destruct b end;
    reflexivity.
Qed.

Lemma layout_within c : within 48 (layout c) = true.
Proof.
  unfold layout, payload_layout.
  repeat match goal with |- context [if ?b then _ else _] => destruct b end;
    reflexivity.
Qed.

Section Normaliser.

Variable host : byte_order.

Lemma length_conv f g u : length (conv host f g u) = length u.
Proof. apply length_set_bytes. Qed.

Ltac fits_tac :=
  unfold fits;
  repeat first [rewrite length_swab | rewrite length_conv | rewrite length_swabs];
  simpl; lia.

Lemma wire_command_header u :
  (48 <= length u)%nat ->
  rd host command (swabs host header_layout u) = wire_command u.
Proof.
  intros Hn. unfold rd.
  rewrite (bytes_swabs_in host 48 command BIG_ENDIAN) by (try reflexivity; simpl; tauto || lia).
  apply combine_reorder.
Qed.

(** The assignments of [usbip_ntoh] amount to converting, in place, the
    members the rule table lists for the command code found on the wire. *)
Lemma usbip_ntoh_spec u :
  (48 <= length u)%nat ->
  usbip_ntoh host u =
    (if known_command (wire_command u) then 0 else ENOTSUP,
     swabs host (layout (wire_command u)) u).
Proof.
  intros Hn. unfold usbip_ntoh. cbv zeta.
  rewrite !conv_be32toh by (reflexivity || fits_tac).
  change (swab host endpoint BIG_ENDIAN _) with (swabs host header_layout u).
  rewrite wire_command_header by assumption.
  unfold layout, payload_layout, known_command. rewrite swabs_app.
  set (h := swabs host header_layout u).
  assert (Hh : (48 <= length h)%nat) by (subst h; now rewrite length_swabs).
  clearbody h.
  destruct (wire_command u =? USBIP_CMD_SUBMIT);
    [| destruct (wire_command u =? USBIP_CMD_UNLINK);
       [| destruct (wire_command u =? USBIP_RET_SUBMIT);
          [| destruct (wire_command u =? USBIP_RET_UNLINK)]]];
    cbn [orb];
    rewrite ?conv_be32toh by (reflexivity || fits_tac);
    rewrite ?conv_le16toh by (reflexivity || fits_tac);
    unfold swabs, cmd_submit_layout, ret_submit_layout;
    cbn [fold_left fst snd]; reflexivity.
Qed.

(** The sender's transform converts the same members, those the table lists
    for the host-order command code. *)
Lemma usbip_hton_spec u :
  (48 <= length u)%nat ->
  usbip_hton host u = swabs host (layout (rd host command u)) u.
Proof.
  intros Hn. unfold usbip_hton. cbv zeta.
  change (htobe32 host) with (be32toh host).
  change (htole16 host) with (le16toh host).
  rewrite !conv_be32toh by (reflexivity || fits_tac).
  change (swab host endpoint BIG_ENDIAN _) with (swabs host header_layout u).
  unfold layout, payload_layout. rewrite swabs_app.
  set (h := swabs host header_layout u).
  assert (Hh : (48 <= length h)%nat) by (subst h; now rewrite length_swabs).
  clearbody h.
  destruct (rd host command u =? USBIP_CMD_SUBMIT);
    [| destruct (rd host command u =? USBIP_CMD_UNLINK);
       [| destruct (rd host command u =? USBIP_RET_SUBMIT);
          [| destruct (rd host command u =? USBIP_RET_UNLINK)]]];
    rewrite ?conv_be32toh by (reflexivity || fits_tac);
    rewrite ?conv_le16toh by (reflexivity || fits_tac);
    unfold swabs, cmd_submit_layout, ret_submit_layout;
    cbn [fold_left fst snd]; reflexivity.
Qed.

End Normaliser.

(** ** What the normaliser does to a frame *)

Section NormaliserFacts.

Variable host : byte_order.

Lemma rd_usbip_ntoh u f o :
  (48 <= length u)%nat -> In (f, o) (layout (wire_command u)) ->
  rd host f (snd (usbip_ntoh host u)) = combine o (bytes f u).
Proof.
  intros Hn Hin. rewrite usbip_ntoh_spec by assumption. cbn [snd]. unfold rd.
  rewrite (bytes_swabs_in host 48 f o)
    by auto using layout_separate, layout_within.
  apply combine_reorder.
Qed.

Lemma bytes_usbip_ntoh u f o :
  (48 <= length u)%nat -> In (f, o) (layout (wire_command u)) ->
  bytes f (snd (usbip_ntoh host u)) = reorder host o (bytes f u).
Proof.
  intros Hn Hin. rewrite usbip_ntoh_spec by assumption. cbn [snd].
  apply (bytes_swabs_in host 48); auto using layout_separate, layout_within.
Qed.

Lemma nth_error_usbip_ntoh u k :
  (48 <= length u)%nat -> outside k (layout (wire_command u)) = true ->
  nth_error (snd (usbip_ntoh host u)) k = nth_error u k.
Proof.
  intros Hn Ho. rewrite usbip_ntoh_spec by assumption. cbn [snd].
  apply (nth_error_swabs_outside host 48); auto using layout_within.
Qed.

Lemma length_usbip_ntoh u :
  (48 <= length u)%nat -> length (snd (usbip_ntoh host u)) = length u.
Proof.
  intros Hn. rewrite usbip_ntoh_spec by assumption. apply length_swabs.
Qed.

Lemma fst_usbip_ntoh u :
  (48 <= length u)%nat ->
  fst (usbip_ntoh host u) = if known_command (wire_command u) then 0 else ENOTSUP.
Proof. intros Hn. now rewrite usbip_ntoh_spec. Qed.

Lemma be_combine_reorder bs :
  be_combine (reorder host BIG_ENDIAN bs) = combine host bs.
Proof.
  unfold reorder, be_combine. destruct host; cbn [byte_order_eqb combine].
  - now rewrite rev_involutive.
  - reflexivity.
Qed.

End NormaliserFacts.

Ltac in_layout :=
  unfold layout, payload_layout;
  match goal with
  | H : wire_command _ = _ |- _ => rewrite H
  | _ => idtac
  end;
  apply in_or_app; simpl; tauto.

(** C1. Whatever the host, after [usbip_ntoh] the five header members hold
    the integers their wire bytes denote in big-endian order; for the two
    submit kinds so do the five numeric members before the setup packet,
    while [wValue], [wIndex] and [wLength] hold the integers their wire
    bytes denote in little-endian order. In particular wire bytes
    00 00 00 01 give [command = 1], 00 00 00 10 give
    [transfer_buffer_length = 16] and 34 12 give [wValue = 0x1234], all in
    one message. *)
Theorem usbip_ntoh_byte_order (host : byte_order) (u : frame) :
  wf_frame u ->
  let u' := snd (usbip_ntoh host u) in
  (forall f, In f [command; seqnum; devid; direction; endpoint] ->
     rd host f u' = be_combine (bytes f u)) /\
  (wire_command u = USBIP_CMD_SUBMIT ->
     (forall f,
        In f [cmd_submit_transfer_flags; cmd_submit_transfer_buffer_length;
              cmd_submit_start_frame; cmd_submit_number_of_packets;
              cmd_submit_interval] ->
        rd host f u' = be_combine (bytes f u)) /\
     (forall f,
        In f [cmd_submit_setup_wValue; cmd_submit_setup_wIndex;
              cmd_submit_setup_wLength] ->
        rd host f u' = le_combine (bytes f u))) /\
  (wire_command u = USBIP_RET_SUBMIT ->
     (forall f,
        In f [ret_submit_status; ret_submit_actual_length;
              ret_submit_start_frame; ret_submit_number_of_packets;
              ret_submit_error_count] ->
        rd host f u' = be_combine (bytes f u)) /\
     (forall f,
        In f [ret_submit_setup_wValue; ret_submit_setup_wIndex;
              ret_submit_setup_wLength] ->
        rd host f u' = le_combine (bytes f u))) /\
  (bytes command u = [Byte.x00; Byte.x00; Byte.x00; Byte.x01] ->
   bytes cmd_submit_transfer_buffer_length u = [Byte.x00; Byte.x00; Byte.x00; Byte.x10] ->
   bytes cmd_submit_setup_wValue u = [Byte.x34; Byte.x12] ->
   rd host command u' = 1 /\
   rd host cmd_submit_transfer_buffer_length u' = 16 /\
   rd host cmd_submit_setup_wValue u' = 0x1234).
Proof.
  intros Hwf u'. apply wf_frame_length in Hwf. subst u'.
  repeat split.
  - intros f Hin. apply (rd_usbip_ntoh host u f BIG_ENDIAN Hwf).
    simpl in Hin. decompose [or] Hin; try contradiction; subst f; in_layout.
  - intros f Hin. apply (rd_usbip_ntoh host u f BIG_ENDIAN Hwf).
    simpl in Hin. decompose [or] Hin; try contradiction; subst f; in_layout.
  - intros f Hin. apply (rd_usbip_ntoh host u f LITTLE_ENDIAN Hwf).
    simpl in Hin. decompose [or] Hin; try contradiction; subst f; in_layout.
  - intros f Hin. apply (rd_usbip_ntoh host u f BIG_ENDIAN Hwf).
    simpl in Hin. decompose [or] Hin; try contradiction; subst f; in_layout.
  - intros f Hin. apply (rd_usbip_ntoh host u f LITTLE_ENDIAN Hwf).
    simpl in Hin. decompose [or] Hin; try contradiction; subst f; in_layout.
  - rewrite (rd_usbip_ntoh host u command BIG_ENDIAN Hwf) by in_layout.
    cbn [combine]. rewrite H. reflexivity.
  - assert (Hc : wire_command u = USBIP_CMD_SUBMIT)
      by (unfold wire_command; rewrite H; reflexivity).
    rewrite (rd_usbip_ntoh host u _ BIG_ENDIAN Hwf) by in_layout.
    cbn [combine]. rewrite H0. reflexivity.
  - assert (Hc : wire_command u = USBIP_CMD_SUBMIT)
      by (unfold wire_command; rewrite H; reflexivity).
    rewrite (rd_usbip_ntoh host u _ LITTLE_ENDIAN Hwf) by in_layout.
    cbn [combine]. rewrite H1. reflexivity.
Qed.

Lemma usbip_ntoh_byte_order_witness :
  wf_frame submit_frame /\
  rd LITTLE_ENDIAN command (snd (usbip_ntoh LITTLE_ENDIAN submit_frame)) = 1 /\
  rd LITTLE_ENDIAN cmd_submit_transfer_buffer_length
     (snd (usbip_ntoh LITTLE_ENDIAN submit_frame)) = 16 /\
  rd LITTLE_ENDIAN cmd_submit_setup_wValue
     (snd (usbip_ntoh LITTLE_ENDIAN submit_frame)) = 0x1234.
Proof.
  assert (Hwf : wf_frame submit_frame) by (vm_compute; reflexivity).
  split; [exact Hwf |].
  apply (usbip_ntoh_byte_order LITTLE_ENDIAN submit_frame Hwf);
    vm_compute; reflexivity.
Defined.

(** C3. A frame whose wire command code is none of 1, 2, 3, 4 makes
    [usbip_ntoh] return [ENOTSUP], which is not the success status; the
    function is total, so there is no other outcome. *)
Theorem usbip_ntoh_unsupported (host : byte_order) (u : frame) :
  wf_frame u ->
  wire_command u <> USBIP_CMD_SUBMIT ->
  wire_command u <> USBIP_CMD_UNLINK ->
  wire_command u <> USBIP_RET_SUBMIT ->
  wire_command u <> USBIP_RET_UNLINK ->
  fst (usbip_ntoh host u) = ENOTSUP /\ fst (usbip_ntoh host u) <> 0.
Proof.
  intros Hwf H1 H2 H3 H4. apply wf_frame_length in Hwf.
  rewrite fst_usbip_ntoh by assumption.
  destruct (known_command (wire_command u)) eqn:Hk.
  - apply known_command_cases in Hk. tauto.
  - split; [reflexivity | discriminate].
Qed.

Lemma usbip_ntoh_unsupported_witness :
  wire_command unknown_frame = 99 /\
  fst (usbip_ntoh LITTLE_ENDIAN unknown_frame) = ENOTSUP /\
  fst (usbip_ntoh LITTLE_ENDIAN unknown_frame) <> 0.
Proof.
  split; [vm_compute; reflexivity |].
  apply (usbip_ntoh_unsupported LITTLE_ENDIAN unknown_frame);
    vm_compute; (reflexivity || discriminate).
Defined.

Ltac outside_tac :=
  unfold layout, payload_layout;
  match goal with
  | H : wire_command _ = _ |- _ => rewrite H
  | _ => idtac
  end;
  cbn [Z.eqb Pos.eqb USBIP_CMD_SUBMIT USBIP_CMD_UNLINK USBIP_RET_SUBMIT
       USBIP_RET_UNLINK header_layout app outside forallb fst];
  repeat (apply andb_true_intro; split); try reflexivity;
  apply orb_true_iff; right; apply Nat.leb_le; simpl; lia.

(** C9. For an unlink command and an unlink reply [usbip_ntoh] leaves every
    byte from offset 24 on as it was (the five header members occupy bytes
    0 to 19 and the one payload member bytes 20 to 23), and the frame keeps
    its size. *)
Theorem usbip_ntoh_unlink_frame (host : byte_order) (u : frame) :
  wf_frame u ->
  wire_command u = USBIP_CMD_UNLINK \/ wire_command u = USBIP_RET_UNLINK ->
  let u' := snd (usbip_ntoh host u) in
  length u' = length u /\
  forall k, (24 <= k)%nat -> nth_error u' k = nth_error u k.
Proof.
  intros Hwf Hc u'. apply wf_frame_length in Hwf. subst u'. split.
  - now apply length_usbip_ntoh.
  - intros k Hk. apply nth_error_usbip_ntoh; [assumption |].
    destruct Hc as [Hc | Hc]; outside_tac.
Qed.

Lemma usbip_ntoh_unlink_frame_witness :
  length (snd (usbip_ntoh LITTLE_ENDIAN unlink_frame)) = length unlink_frame /\
  forall k, (24 <= k)%nat ->
    nth_error (snd (usbip_ntoh LITTLE_ENDIAN unlink_frame)) k = nth_error unlink_frame k.
Proof.
  apply (usbip_ntoh_unlink_frame LITTLE_ENDIAN unlink_frame).
  - vm_compute. reflexivity.
  - left. vm_compute. reflexivity.
Defined.

(** C10. On the error path the header has already been converted in place:
    the frame [usbip_ntoh] leaves behind when it returns [ENOTSUP] is the
    input with its five header members brought from big-endian to host
    order, so that each holds the integer its wire bytes denote; on a
    little-endian host the four bytes of each are reversed (on a big-endian
    host the conversion is the identity); nothing from offset 20 on is
    touched. *)
Theorem usbip_ntoh_error_header_converted (host : byte_order) (u : frame) :
  wf_frame u ->
  known_command (wire_command u) = false ->
  let r := usbip_ntoh host u in
  fst r = ENOTSUP /\
  snd r = swabs host header_layout u /\
  (forall f, In f [command; seqnum; devid; direction; endpoint] ->
     rd host f (snd r) = be_combine (bytes f u) /\
     bytes f (snd r) =
       match host with
       | LITTLE_ENDIAN => rev (bytes f u)
       | BIG_ENDIAN => bytes f u
       end) /\
  (forall k, (20 <= k)%nat -> nth_error (snd r) k = nth_error u k).
Proof.
  intros Hwf Hk r. apply wf_frame_length in Hwf. subst r.
  split; [| split; [| split]].
  - rewrite fst_usbip_ntoh by assumption. now rewrite Hk.
  - rewrite usbip_ntoh_spec by assumption. cbn [snd].
    unfold layout, payload_layout. revert Hk. unfold known_command.
    rewrite !orb_false_iff. intros [[[-> ->] ->] ->]. now rewrite app_nil_r.
  - intros f Hin. split.
    + apply (rd_usbip_ntoh host u f BIG_ENDIAN Hwf).
      simpl in Hin. decompose [or] Hin; try contradiction; subst f; in_layout.
    + rewrite (bytes_usbip_ntoh host u f BIG_ENDIAN Hwf).
      * unfold reorder. now destruct host.
      * simpl in Hin. decompose [or] Hin; try contradiction; subst f; in_layout.
  - intros k Hk20. apply nth_error_usbip_ntoh; [assumption |].
    unfold layout, payload_layout. revert Hk. unfold known_command.
    rewrite !orb_false_iff. intros [[[-> ->] ->] ->].
    cbn [header_layout app outside forallb fst].
    repeat (apply andb_true_intro; split); try reflexivity;
      apply orb_true_iff; right; apply Nat.leb_le; simpl; lia.
Qed.

Lemma usbip_ntoh_error_header_converted_witness :
  fst (usbip_ntoh LITTLE_ENDIAN unknown_frame) = ENOTSUP /\
  bytes command (snd (usbip_ntoh LITTLE_ENDIAN unknown_frame)) =
    rev (bytes command unknown_frame) /\
  snd (usbip_ntoh LITTLE_ENDIAN unknown_frame) <> unknown_frame.
Proof.
  destruct (usbip_ntoh_error_header_converted LITTLE_ENDIAN unknown_frame)
    as (Hr & Hs & Hf & _).
  - vm_compute. reflexivity.
  - vm_compute. reflexivity.
  - split; [exact Hr |]. split.
    + apply Hf. simpl. tauto.
    + intros Heq. apply (f_equal (firstn 4)) in Heq.
      vm_compute in Heq. discriminate Heq.
Defined.

(** C6. Spec-modelled sender: for every frame whose host-order command is
    one of the four kinds, normalising what [usbip_hton] produced succeeds
    and gives the frame back, byte for byte and hence member for member. *)
Theorem usbip_ntoh_hton (host : byte_order) (u : frame) :
  wf_frame u ->
  known_command (rd host command u) = true ->
  usbip_ntoh host (usbip_hton host u) = (0, u).
Proof.
  intros Hwf Hk. apply wf_frame_length in Hwf.
  rewrite usbip_hton_spec by assumption.
  set (l := layout (rd host command u)).
  assert (Hc : wire_command (swabs host l u) = rd host command u).
  { unfold wire_command.
    rewrite (bytes_swabs_in host 48 command BIG_ENDIAN)
      by (subst l; auto using layout_separate, layout_within; in_layout).
    apply be_combine_reorder. }
  rewrite usbip_ntoh_spec by (now rewrite length_swabs).
  rewrite Hc, Hk. fold l. f_equal.
  apply (swabs_involutive host 48); subst l;
    auto using layout_separate, layout_within.
Qed.

Lemma usbip_ntoh_hton_witness :
  usbip_ntoh LITTLE_ENDIAN
    (usbip_hton LITTLE_ENDIAN (snd (usbip_ntoh LITTLE_ENDIAN submit_frame))) =
  (0, snd (usbip_ntoh LITTLE_ENDIAN submit_frame)).
Proof.
  apply (usbip_ntoh_hton LITTLE_ENDIAN); vm_compute; reflexivity.
Defined.

(** ** The dumper *)

Lemma append_assoc (s t r : string) :
  String.append (String.append s t) r = String.append s (String.append t r).
Proof. induction s as [|c s IH]; cbn [String.append]; [reflexivity | now rewrite IH]. Qed.

Lemma append_nil_r (s : string) : String.append s EmptyString = s.
Proof. induction s as [|c s IH]; cbn [String.append]; [reflexivity | now rewrite IH]. Qed.

Lemma option_map_append (f : string) (o : option string) (s : string) :
  option_map (String.append (String.append f s)) o =
  option_map (String.append f) (option_map (String.append s) o).
Proof. destruct o; cbn [option_map]; [now rewrite append_assoc | reflexivity]. Qed.

(** What the loop appends to the stream does not depend on the stream. *)
Lemma dump_data_rows u n i f :
  dump_data u n i f = option_map (String.append f) (data_rows u n i).
Proof.
  revert i f. induction n as [|n IH]; intros i f; cbn [dump_data data_rows].
  - cbn [option_map]. now rewrite append_nil_r.
  - destruct (nth_error u (data_offset + Z.to_nat i)) as [b|]; [| reflexivity].
    rewrite IH. unfold fprintf. apply option_map_append.
Qed.

Lemma skipn_nth_error (u : frame) k b :
  nth_error u k = Some b -> skipn k u = b :: skipn (S k) u.
Proof.
  revert u. induction k as [|k IH]; intros [|a u] H; try discriminate H.
  - cbn in H. now injection H as ->.
  - cbn [skipn]. now apply IH.
Qed.

(** Within the frame the rows are the hex dump of the [n] bytes found from
    offset [data_offset + i] on. *)
Lemma data_rows_within u n i :
  0 <= i -> (data_offset + Z.to_nat i + n <= length u)%nat ->
  data_rows u n i = Some (hex_rows i (firstn n (skipn (data_offset + Z.to_nat i) u))).
Proof.
  revert i. induction n as [|n IH]; intros i Hi Hn; cbn [data_rows].
  - reflexivity.
  - destruct (nth_error u (data_offset + Z.to_nat i)) as [b|] eqn:Hb.
    + rewrite (skipn_nth_error _ _ _ Hb). cbn [firstn hex_rows].
      rewrite IH by lia. cbn [option_map].
      replace (data_offset + Z.to_nat (i + 1))%nat
        with (S (data_offset + Z.to_nat i)) by lia.
      reflexivity.
    + apply nth_error_None in Hb. lia.
Qed.

(** Past the end of the frame there is nothing to read. *)
Lemma data_rows_beyond u n i :
  0 <= i -> (data_offset + Z.to_nat i <= length u)%nat ->
  (length u < data_offset + Z.to_nat i + n)%nat ->
  data_rows u n i = None.
Proof.
  revert i. induction n as [|n IH]; intros i Hi Hs Hn; cbn [data_rows].
  - lia.
  - destruct (nth_error u (data_offset + Z.to_nat i)) as [b|] eqn:Hb; [| reflexivity].
    assert (data_offset + Z.to_nat i < length u)%nat
      by (apply nth_error_Some; congruence).
    rewrite IH; [reflexivity | lia | lia | lia].
Qed.

Ltac flatten_text :=
  unfold fprintf, header_text, cmd_submit_text, ret_submit_text, text;
  cbn [fold_right option_map];
  repeat rewrite append_assoc;
  rewrite ?append_nil_r;
  cbn [String.append].

Section Dumper.

Variable host : byte_order.


Lemma usbip_dump_cmd_submit u f :
  wf_frame u ->
  rd host command u = USBIP_CMD_SUBMIT ->
  rd host cmd_submit_transfer_buffer_length u <= padding_size ->
  usbip_dump host u f =
    Some (text [ f; header_text host u; cmd_submit_text host u;
                 hex_rows 0 (firstn (Z.to_nat (rd host cmd_submit_transfer_buffer_length u))
                                    (skipn data_offset u));
                 sprintf "\n  }\n" []; sprintf "}\n" [] ]).
Proof.
  unfold wf_frame, sizeof_usbip, padding_size. intros Hwf Hc Hn.
  unfold usbip_dump. cbv zeta. rewrite Hc.
  change (USBIP_CMD_SUBMIT =? USBIP_CMD_SUBMIT) with true. cbv iota.
  rewrite dump_data_rows, data_rows_within by (simpl; lia).
  change (data_offset + Z.to_nat 0)%nat with data_offset.
  flatten_text. rewrite Hc. reflexivity.
Qed.

Lemma usbip_dump_ret_submit u f :
  wf_frame u ->
  rd host command u = USBIP_RET_SUBMIT ->
  rd host ret_submit_actual_length u <= padding_size ->
  usbip_dump host u f =
    Some (text [ f; header_text host u; ret_submit_text host u;
                 hex_rows 0 (firstn (Z.to_nat (rd host ret_submit_actual_length u))
                                    (skipn data_offset u));
                 sprintf "\n  }\n" []; sprintf "}\n" [] ]).
Proof.
  unfold wf_frame, sizeof_usbip, padding_size. intros Hwf Hc Hn.
  unfold usbip_dump. cbv zeta. rewrite Hc.
  change (USBIP_RET_SUBMIT =? USBIP_CMD_SUBMIT) with false.
  change (USBIP_RET_SUBMIT =? USBIP_CMD_UNLINK) with false.
  change (USBIP_RET_SUBMIT =? USBIP_RET_SUBMIT) with true. cbv iota.
  rewrite dump_data_rows, data_rows_within by (simpl; lia).
  change (data_offset + Z.to_nat 0)%nat with data_offset.
  flatten_text. rewrite Hc. reflexivity.
Qed.

Lemma usbip_dump_other u f :
  rd host command u <> USBIP_CMD_SUBMIT ->
  rd host command u <> USBIP_RET_SUBMIT ->
  usbip_dump host u f <> None.
Proof.
  intros H1 H3. unfold usbip_dump. cbv zeta.
  destruct (Z.eqb_spec (rd host command u) USBIP_CMD_SUBMIT); [contradiction |].
  destruct (Z.eqb_spec (rd host command u) USBIP_CMD_UNLINK); [discriminate |].
  destruct (Z.eqb_spec (rd host command u) USBIP_RET_SUBMIT); [contradiction |].
  destruct (Z.eqb_spec (rd host command u) USBIP_RET_UNLINK); discriminate.
Qed.

(** A declared length beyond the room the frame has after its fixed members
    sends the loop past the end of the object. *)
Lemma usbip_dump_ret_submit_beyond u f :
  wf_frame u ->
  rd host command u = USBIP_RET_SUBMIT ->
  padding_size < rd host ret_submit_actual_length u ->
  usbip_dump host u f = None.
Proof.
  unfold wf_frame, sizeof_usbip, padding_size. intros Hwf Hc Hn.
  unfold usbip_dump. cbv zeta. rewrite Hc.
  change (USBIP_RET_SUBMIT =? USBIP_CMD_SUBMIT) with false.
  change (USBIP_RET_SUBMIT =? USBIP_CMD_UNLINK) with false.
  change (USBIP_RET_SUBMIT =? USBIP_RET_SUBMIT) with true. cbv iota.
  rewrite dump_data_rows, data_rows_beyond by (simpl; lia).
  reflexivity.
Qed.

End Dumper.

(** C5, as amended. [usbip_dump] neither truncates nor marks anything: for a
    submit command or reply whose declared length is at most the 65488 bytes
    a frame has after its fixed members, it succeeds and prints, after the
    lines of the fixed members, the hex rows of exactly the declared number
    of bytes taken from offset 48 of the frame, then the two closing lines;
    for the other kinds it prints no data and succeeds. *)
Theorem usbip_dump_prints_declared_length (host : byte_order) (u : frame) (f : FILE) :
  wf_frame u ->
  (rd host command u = USBIP_CMD_SUBMIT ->
   rd host cmd_submit_transfer_buffer_length u <= padding_size ->
   usbip_dump host u f =
     Some (text [ f; header_text host u; cmd_submit_text host u;
                  hex_rows 0 (firstn (Z.to_nat (rd host cmd_submit_transfer_buffer_length u))
                                     (skipn data_offset u));
                  sprintf "\n  }\n" []; sprintf "}\n" [] ])) /\
  (rd host command u = USBIP_RET_SUBMIT ->
   rd host ret_submit_actual_length u <= padding_size ->
   usbip_dump host u f =
     Some (text [ f; header_text host u; ret_submit_text host u;
                  hex_rows 0 (firstn (Z.to_nat (rd host ret_submit_actual_length u))
                                     (skipn data_offset u));
                  sprintf "\n  }\n" []; sprintf "}\n" [] ])) /\
  (rd host command u <> USBIP_CMD_SUBMIT ->
   rd host command u <> USBIP_RET_SUBMIT ->
   usbip_dump host u f <> None).
Proof.
  intros Hwf. split; [| split].
  - now apply usbip_dump_cmd_submit.
  - now apply usbip_dump_ret_submit.
  - apply usbip_dump_other.
Qed.

Lemma usbip_dump_prints_declared_length_witness :
  rd LITTLE_ENDIAN ret_submit_actual_length
     (snd (decode LITTLE_ENDIAN short_reply)) = 64 /\
  usbip_dump LITTLE_ENDIAN (snd (decode LITTLE_ENDIAN short_reply)) EmptyString =
    Some (text [ EmptyString;
                 header_text LITTLE_ENDIAN (snd (decode LITTLE_ENDIAN short_reply));
                 ret_submit_text LITTLE_ENDIAN (snd (decode LITTLE_ENDIAN short_reply));
                 hex_rows 0 (firstn 64 (skipn data_offset (snd (decode LITTLE_ENDIAN short_reply))));
                 sprintf "\n  }\n" []; sprintf "}\n" [] ]).
Proof.
  split; [vm_compute; reflexivity |].
  apply (usbip_dump_prints_declared_length LITTLE_ENDIAN
           (snd (decode LITTLE_ENDIAN short_reply)) EmptyString);
    vm_compute; (reflexivity || discriminate).
Defined.

(** C5, as stated, fails: the reply that declares 64 bytes and carries 10 is
    dumped with 64 bytes of data, the last 54 being the zero fill of the
    frame, and with no marker; its dump is the very text produced for the
    same reply carrying 54 zero bytes more. *)
Lemma usbip_dump_short_reply_not_truncated :
  length short_reply = (data_offset + 10)%nat /\
  rd LITTLE_ENDIAN ret_submit_actual_length
     (snd (decode LITTLE_ENDIAN short_reply)) = 64 /\
  usbip_dump LITTLE_ENDIAN (snd (decode LITTLE_ENDIAN short_reply)) EmptyString =
    Some short_reply_dump /\
  usbip_dump LITTLE_ENDIAN
    (snd (decode LITTLE_ENDIAN (short_reply ++ repeat Byte.x00 54))) EmptyString =
    Some short_reply_dump.
Proof. repeat split; vm_compute; reflexivity. Qed.

(** ** Receiving and normalising *)

Lemma length_recv dgram u : length (recv dgram u) = length u.
Proof. apply List.upds_length. Qed.

Lemma wf_usbip_zero : wf_frame usbip_zero.
Proof. vm_compute. reflexivity. Qed.

Lemma wf_recv dgram : wf_frame (recv dgram usbip_zero).
Proof. unfold wf_frame. rewrite length_recv. apply wf_usbip_zero. Qed.

(** C4, as amended. [decode] takes no account of how many bytes arrived:
    whatever the datagram, the received frame is a whole [struct usbip], the
    status is 0 when the command code is one of the four kinds and [ENOTSUP]
    otherwise, and for the two submit kinds the declared length is converted
    and stored as it is. *)
Theorem decode_ignores_length (host : byte_order) (dgram : list byte) :
  wf_frame (recv dgram usbip_zero) /\
  fst (decode host dgram) =
    (if known_command (wire_command (recv dgram usbip_zero)) then 0 else ENOTSUP) /\
  (wire_command (recv dgram usbip_zero) = USBIP_CMD_SUBMIT ->
   fst (decode host dgram) = 0 /\
   rd host cmd_submit_transfer_buffer_length (snd (decode host dgram)) =
     be_combine (bytes cmd_submit_transfer_buffer_length (recv dgram usbip_zero))) /\
  (wire_command (recv dgram usbip_zero) = USBIP_RET_SUBMIT ->
   fst (decode host dgram) = 0 /\
   rd host ret_submit_actual_length (snd (decode host dgram)) =
     be_combine (bytes ret_submit_actual_length (recv dgram usbip_zero))).
Proof.
  unfold decode. pose proof (wf_recv dgram) as Hwf.
  revert Hwf. generalize (recv dgram usbip_zero). intros u Hwf.
  pose proof (wf_frame_length u Hwf) as Hn.
  split; [exact Hwf |]. split; [now apply fst_usbip_ntoh |].
  split; intros Hc.
  - split.
    + rewrite fst_usbip_ntoh by assumption. now rewrite Hc.
    + apply (rd_usbip_ntoh host u _ BIG_ENDIAN Hn). in_layout.
  - split.
    + rewrite fst_usbip_ntoh by assumption. now rewrite Hc.
    + apply (rd_usbip_ntoh host u _ BIG_ENDIAN Hn). in_layout.
Qed.

(** C4, as stated, fails: the reply that declares 64 bytes and carries 10 is
    decoded with status 0, on either host. *)
Lemma decode_short_reply_succeeds :
  length short_reply = (data_offset + 10)%nat /\
  wire_command short_reply = USBIP_RET_SUBMIT /\
  be_combine (bytes ret_submit_actual_length short_reply) = 64 /\
  fst (decode LITTLE_ENDIAN short_reply) = 0 /\
  fst (decode BIG_ENDIAN short_reply) = 0.
Proof. repeat split; vm_compute; reflexivity. Qed.

(** ** Setup-byte helpers *)

Lemma SETUP_DIR_bit0 rt : SETUP_DIR rt = Z.b2z (Z.testbit rt 0).
Proof.
  unfold SETUP_DIR. change (Z.shiftr 0x80 7) with (Z.ones 1).
  rewrite Z.land_ones by lia. symmetry. apply Z.bit0_mod.
Qed.

Lemma usbip_setup_dir_str_bit0 rt :
  usbip_setup_dir_str rt = "D2H"%string <-> Z.testbit rt 0 = true.
Proof.
  unfold usbip_setup_dir_str. rewrite SETUP_DIR_bit0.
  destruct (Z.testbit rt 0); cbn; split; (reflexivity || discriminate).
Qed.

(** C2. The macros mask with the shifted constant: [SETUP_DIR] is bit 0 and
    [SETUP_TYP] bits 1 to 0 of the byte, only [SETUP_RCP] is bits 4 to 0 as
    intended; the direction label is decided by bit 0. For [0x80], whose
    bit 7 says device-to-host, the direction comes out as ["H2D"]; for
    [0x20], whose bits 6 to 5 say class, the type comes out as
    ["standard"]. *)
Theorem setup_macros_mask_low_bits :
  (forall rt, SETUP_DIR rt = Z.land rt 1 /\
              SETUP_TYP rt = Z.land rt 3 /\
              SETUP_RCP rt = Z.land rt 31) /\
  (forall rt, usbip_setup_dir_str rt = "D2H"%string <-> Z.testbit rt 0 = true) /\
  Z.testbit 0x80 7 = true /\
  usbip_setup_dir_str 0x80 = "H2D"%string /\
  usbip_setup_typ_str 0x80 = "standard"%string /\
  usbip_setup_rcp_str 0x80 = "device"%string /\
  Z.land (Z.shiftr 0x20 5) 3 = 1 /\
  usbip_setup_typ_str 0x20 = "standard"%string.
Proof.
  split; [intros rt; repeat split |].
  split; [exact usbip_setup_dir_str_bit0 |].
  repeat split.
Qed.

Lemma usbip_setup_dir_str_label rt : In (usbip_setup_dir_str rt) dir_labels.
Proof.
  unfold usbip_setup_dir_str. destruct (negb (SETUP_DIR rt =? 0)); simpl; tauto.
Qed.

Lemma usbip_setup_typ_str_label rt : In (usbip_setup_typ_str rt) typ_labels.
Proof.
  unfold usbip_setup_typ_str. destruct (SETUP_TYP rt) as [|p|p]; [simpl; tauto | | simpl; tauto].
  destruct p as [[p|p|]|[p|p|]|]; simpl; tauto.
Qed.

Lemma usbip_setup_typ_str_reserved rt :
  ~ In (SETUP_TYP rt) [0; 1; 2] -> usbip_setup_typ_str rt = "<reserved>"%string.
Proof.
  unfold usbip_setup_typ_str. intros H.
  destruct (SETUP_TYP rt) as [|p|p]; [simpl in H; tauto | | reflexivity].
  destruct p as [[p|p|]|[p|p|]|]; try reflexivity; simpl in H; tauto.
Qed.

Lemma usbip_setup_rcp_str_label rt : In (usbip_setup_rcp_str rt) rcp_labels.
Proof.
  unfold usbip_setup_rcp_str. destruct (SETUP_RCP rt) as [|p|p]; [simpl; tauto | | simpl; tauto].
  destruct p as [[p|p|]|[p|p|]|]; simpl; tauto.
Qed.

Lemma usbip_setup_rcp_str_reserved rt :
  ~ In (SETUP_RCP rt) [0; 1; 2; 3] -> usbip_setup_rcp_str rt = "<reserved>"%string.
Proof.
  unfold usbip_setup_rcp_str. intros H.
  destruct (SETUP_RCP rt) as [|p|p]; [simpl in H; tauto | | reflexivity].
  destruct p as [[p|p|]|[p|p|]|]; try reflexivity; simpl in H; tauto.
Qed.

Lemma usbip_setup_req_str_label req : In (usbip_setup_req_str req) req_labels.
Proof.
  destruct req as [|p|p]; [simpl; tauto | | simpl; tauto].
  do 4 (try destruct p as [p|p|]); simpl; tauto.
Qed.

Lemma usbip_setup_req_str_reserved req :
  ~ In req named_requests -> usbip_setup_req_str req = "<reserved>"%string.
Proof.
  intros H.
  destruct req as [|p|p]; [simpl in H; tauto | | reflexivity].
  do 4 (try destruct p as [p|p|]); try reflexivity; simpl in H; tauto.
Qed.

(** C7. The four helpers are total: every argument yields one of a fixed
    set of labels; a request code the switch does not name, a type value
    other than 0, 1, 2 and a recipient value other than 0, 1, 2, 3 yield
    ["<reserved>"]. Request code 6 yields ["GET_DESCRIPTOR"] and request code
    200 yields ["<reserved>"]. *)
Theorem setup_strings_total :
  (forall rt, In (usbip_setup_dir_str rt) dir_labels) /\
  (forall rt, In (usbip_setup_typ_str rt) typ_labels) /\
  (forall rt, In (usbip_setup_rcp_str rt) rcp_labels) /\
  (forall req, In (usbip_setup_req_str req) req_labels) /\
  (forall rt, ~ In (SETUP_TYP rt) [0; 1; 2] ->
     usbip_setup_typ_str rt = "<reserved>"%string) /\
  (forall rt, ~ In (SETUP_RCP rt) [0; 1; 2; 3] ->
     usbip_setup_rcp_str rt = "<reserved>"%string) /\
  (forall req, ~ In req named_requests ->
     usbip_setup_req_str req = "<reserved>"%string) /\
  usbip_setup_req_str 6 = "GET_DESCRIPTOR"%string /\
  usbip_setup_req_str 200 = "<reserved>"%string.
Proof.
  repeat split;
    auto using usbip_setup_dir_str_label, usbip_setup_typ_str_label,
      usbip_setup_rcp_str_label, usbip_setup_req_str_label,
      usbip_setup_typ_str_reserved, usbip_setup_rcp_str_reserved,
      usbip_setup_req_str_reserved.
Qed.

(** * Further properties *)

(** ** Normalising once, and once more *)

Lemma byte_order_eqb_refl o : byte_order_eqb o o = true.
Proof. now destruct o. Qed.

Lemma byte_order_eqb_eq a b : byte_order_eqb a b = true -> a = b.
Proof. destruct a, b; (reflexivity || discriminate). Qed.

Lemma le_combine_bswap_32 (bs : list byte) :
  length bs = 4%nat -> le_combine bs = bswap_32 (be_combine bs).
Proof.
  intros H. destruct bs as [|a [|b [|c [|d [|]]]]]; try discriminate H.
  unfold be_combine. cbn [rev app]. now rewrite bswap_32_le_combine.
Qed.

Lemma payload_layout_apart c : apart header_layout (payload_layout c) = true.
Proof.
  unfold payload_layout.
  repeat match goal with |- context [if ?b then _ else _] => destruct b end;
    reflexivity.
Qed.

Lemma payload_layout_within c : within 48 (payload_layout c) = true.
Proof.
  unfold payload_layout.
  repeat match goal with |- context [if ?b then _ else _] => destruct b end;
    reflexivity.
Qed.

Section Twice.

Variable host : byte_order.

(** A member already in its wire order is left as it is. *)
Lemma swab_host_order f u : swab host f host u = u.
Proof.
  unfold swab, reorder. rewrite byte_order_eqb_refl. apply set_bytes_bytes.
Qed.

Lemma swabs_swabs_comm n l l' u :
  apart l l' = true -> within n l = true -> within n l' = true ->
  (n <= length u)%nat ->
  swabs host l (swabs host l' u) = swabs host l' (swabs host l u).
Proof.
  revert u. induction l as [|fo l IH]; intros u Ha Hw Hw' Hn; [reflexivity |].
  cbn [apart forallb] in Ha. apply andb_prop in Ha as [Hd Ha].
  pose proof (within_fits n _ u fo Hw Hn (or_introl eq_refl)) as Hfo.
  cbn [within forallb] in Hw. apply andb_prop in Hw as [_ Hw].
  rewrite !swabs_cons.
  rewrite (swab_swabs_comm host n) by assumption.
  apply IH; try assumption. now rewrite length_swab.
Qed.

Lemma nth_error_swabs_untouched n k l u :
  untouched host k l = true -> within n l = true -> (n <= length u)%nat ->
  nth_error (swabs host l u) k = nth_error u k.
Proof.
  revert u. induction l as [|fo l IH]; intros u Hu Hw Hn; [reflexivity |].
  cbn [untouched forallb] in Hu. apply andb_prop in Hu as [Hk Hu].
  pose proof (within_fits n _ u fo Hw Hn (or_introl eq_refl)) as Hfo.
  cbn [within forallb] in Hw. apply andb_prop in Hw as [_ Hw].
  rewrite swabs_cons, IH by (rewrite ?length_swab; assumption).
  rewrite <- orb_assoc in Hk. apply orb_prop in Hk as [Ho | Hk].
  - apply byte_order_eqb_eq in Ho. rewrite <- Ho. now rewrite swab_host_order.
  - now apply nth_error_swab_outside.
Qed.

(** After the normaliser the command member holds the wire command code, and
    the bytes it now occupies denote, read as a wire code again, what the
    original bytes denote in host order. *)
Lemma rd_command_usbip_ntoh u :
  (48 <= length u)%nat ->
  rd host command (snd (usbip_ntoh host u)) = wire_command u.
Proof.
  intros Hn. apply (rd_usbip_ntoh host u command BIG_ENDIAN Hn).
  unfold layout. apply in_or_app. simpl. tauto.
Qed.

Lemma wire_command_usbip_ntoh u :
  (48 <= length u)%nat ->
  wire_command (snd (usbip_ntoh host u)) = rd host command u.
Proof.
  intros Hn. unfold wire_command.
  rewrite (bytes_usbip_ntoh host u command BIG_ENDIAN Hn)
    by (unfold layout; apply in_or_app; simpl; tauto).
  apply be_combine_reorder.
Qed.

Lemma usbip_ntoh_twice_spec u :
  (48 <= length u)%nat ->
  usbip_ntoh host (snd (usbip_ntoh host u)) =
    (if known_command (rd host command u) then 0 else ENOTSUP,
     swabs host (layout (rd host command u))
       (swabs host (layout (wire_command u)) u)).
Proof.
  intros Hn.
  rewrite (usbip_ntoh_spec host (snd (usbip_ntoh host u)))
    by (now rewrite length_usbip_ntoh).
  rewrite wire_command_usbip_ntoh by assumption.
  now rewrite (usbip_ntoh_spec host u) by assumption.
Qed.

End Twice.

(** X1. The normaliser loses nothing: two whole frames that it turns into
    the same frame are the same frame. *)
Theorem usbip_ntoh_injective (host : byte_order) (u1 u2 : frame) :
  wf_frame u1 -> wf_frame u2 ->
  snd (usbip_ntoh host u1) = snd (usbip_ntoh host u2) ->
  u1 = u2.
Proof.
  intros H1 H2 He. apply wf_frame_length in H1, H2.
  assert (Hc : wire_command u1 = wire_command u2).
  { rewrite <- (rd_command_usbip_ntoh host u1), <- (rd_command_usbip_ntoh host u2)
      by assumption.
    now rewrite He. }
  rewrite !usbip_ntoh_spec in He by assumption. cbn [snd] in He.
  rewrite Hc in He.
  apply (f_equal (swabs host (layout (wire_command u2)))) in He.
  now rewrite !(swabs_involutive host 48) in He
    by auto using layout_separate, layout_within.
Qed.

Lemma usbip_ntoh_injective_witness : submit_frame = submit_frame.
Proof.
  apply (usbip_ntoh_injective LITTLE_ENDIAN submit_frame submit_frame);
    [vm_compute; reflexivity | vm_compute; reflexivity | reflexivity].
Defined.

(** X2. On a big-endian host the normaliser undoes itself: run on a frame it
    has already normalised, it returns the same status and gives the
    original frame back. *)
Theorem usbip_ntoh_twice_big_endian (u : frame) :
  wf_frame u ->
  usbip_ntoh BIG_ENDIAN (snd (usbip_ntoh BIG_ENDIAN u)) =
    (fst (usbip_ntoh BIG_ENDIAN u), u).
Proof.
  intros Hwf. apply wf_frame_length in Hwf.
  rewrite usbip_ntoh_twice_spec, fst_usbip_ntoh by assumption.
  change (rd BIG_ENDIAN command u) with (wire_command u).
  f_equal. apply (swabs_involutive BIG_ENDIAN 48);
    auto using layout_separate, layout_within.
Qed.

Lemma usbip_ntoh_twice_big_endian_witness :
  usbip_ntoh BIG_ENDIAN (snd (usbip_ntoh BIG_ENDIAN submit_frame)) =
    (fst (usbip_ntoh BIG_ENDIAN submit_frame), submit_frame).
Proof.
  apply (usbip_ntoh_twice_big_endian submit_frame). vm_compute. reflexivity.
Defined.

Lemma known_command_bswap_32 c :
  known_command c = true -> known_command (bswap_32 c) = false.
Proof.
  intros H. apply known_command_cases in H.
  destruct H as [-> | [-> | [-> | ->]]]; reflexivity.
Qed.

Lemma payload_layout_unknown c : known_command c = false -> payload_layout c = [].
Proof.
  unfold known_command, payload_layout. rewrite !orb_false_iff.
  now intros [[[-> ->] ->] ->].
Qed.

Lemma outside_header k : (20 <= k)%nat -> outside k header_layout = true.
Proof.
  intros Hk. cbn [header_layout outside forallb fst].
  repeat (apply andb_true_intro; split); try reflexivity;
    apply orb_true_iff; right; apply Nat.leb_le; simpl; lia.
Qed.

Lemma outside_payload k c : (k < 20)%nat -> outside k (payload_layout c) = true.
Proof.
  intros Hk. unfold payload_layout.
  repeat match goal with |- context [if ?b then _ else _] => destruct b end;
    cbn [cmd_submit_layout ret_submit_layout outside forallb fst];
    repeat (apply andb_true_intro; split); try reflexivity;
    apply orb_true_iff; left; apply Nat.ltb_lt; simpl; lia.
Qed.

(** X3. On a little-endian host the normaliser does not survive a second
    run: a frame of a known kind, once normalised, is rejected with
    [ENOTSUP] when normalised again, and that second run puts the header
    bytes back in wire order while the payload stays converted. *)
Theorem usbip_ntoh_twice_little_endian (u : frame) :
  wf_frame u ->
  known_command (wire_command u) = true ->
  let once := usbip_ntoh LITTLE_ENDIAN u in
  let twice := usbip_ntoh LITTLE_ENDIAN (snd once) in
  fst once = 0 /\
  fst twice = ENOTSUP /\
  (forall k, (k < 20)%nat -> nth_error (snd twice) k = nth_error u k) /\
  (forall k, (20 <= k)%nat -> nth_error (snd twice) k = nth_error (snd once) k).
Proof.
  intros Hwf Hk once twice. apply wf_frame_length in Hwf.
  assert (Hc : rd LITTLE_ENDIAN command u = bswap_32 (wire_command u)).
  { unfold rd, wire_command. cbn [combine].
    apply le_combine_bswap_32, (length_bytes command u). unfold fits. simpl. lia. }
  pose proof (known_command_bswap_32 _ Hk) as Hk'.
  assert (Ht : twice =
               (ENOTSUP, swabs LITTLE_ENDIAN (payload_layout (wire_command u)) u)).
  { subst twice once. rewrite usbip_ntoh_twice_spec by assumption.
    rewrite Hc, Hk'. f_equal.
    unfold layout. rewrite (payload_layout_unknown _ Hk'), app_nil_r.
    rewrite swabs_app.
    rewrite (swabs_swabs_comm LITTLE_ENDIAN 48)
      by (rewrite ?length_swabs; auto using payload_layout_apart, payload_layout_within).
    f_equal. apply (swabs_involutive LITTLE_ENDIAN 48); auto. }
  assert (Ho : snd once =
               swabs LITTLE_ENDIAN header_layout
                 (swabs LITTLE_ENDIAN (payload_layout (wire_command u)) u)).
  { subst once. rewrite usbip_ntoh_spec by assumption. cbn [snd].
    unfold layout. rewrite swabs_app.
    symmetry. apply (swabs_swabs_comm LITTLE_ENDIAN 48);
      auto using payload_layout_apart, payload_layout_within. }
  split; [| split; [| split]].
  - subst once. rewrite fst_usbip_ntoh by assumption. now rewrite Hk.
  - now rewrite Ht.
  - intros k Hk20. rewrite Ht. cbn [snd].
    apply (nth_error_swabs_outside LITTLE_ENDIAN 48);
      auto using payload_layout_within, outside_payload.
  - intros k Hk20. rewrite Ht, Ho. cbn [snd]. symmetry.
    apply (nth_error_swabs_outside LITTLE_ENDIAN 48);
      rewrite ?length_swabs; auto using outside_header.
Qed.

Lemma usbip_ntoh_twice_little_endian_witness :
  fst (usbip_ntoh LITTLE_ENDIAN submit_frame) = 0 /\
  fst (usbip_ntoh LITTLE_ENDIAN (snd (usbip_ntoh LITTLE_ENDIAN submit_frame))) = ENOTSUP.
Proof.
  destruct (usbip_ntoh_twice_little_endian submit_frame) as (H1 & H2 & _).
  - vm_compute. reflexivity.
  - vm_compute. reflexivity.
  - split; [exact H1 | exact H2].
Defined.

(** ** Bytes the normaliser leaves alone *)

Lemma outside_forallb_app k l l' :
  outside k (l ++ l') = outside k l && outside k l'.
Proof. unfold outside. apply forallb_app. Qed.

Lemma untouched_forallb_app host k l l' :
  untouched host k (l ++ l') = untouched host k l && untouched host k l'.
Proof. unfold untouched. apply forallb_app. Qed.

Ltac ends_before :=
  repeat (apply andb_true_intro; split); try reflexivity;
  apply orb_true_iff; right; apply Nat.leb_le; simpl; lia.

Lemma outside_layout_data k c : (48 <= k)%nat -> outside k (layout c) = true.
Proof.
  intros Hk. unfold layout. rewrite outside_forallb_app, outside_header by lia.
  unfold payload_layout.
  repeat match goal with |- context [if ?b then _ else _] => destruct b end;
    cbn [cmd_submit_layout ret_submit_layout outside forallb fst andb];
    ends_before.
Qed.

Lemma outside_layout_setup_bytes k c :
  k = 40%nat \/ k = 41%nat -> outside k (layout c) = true.
Proof.
  intros Hk. unfold layout, payload_layout.
  repeat match goal with |- context [if ?b then _ else _] => destruct b end;
    destruct Hk as [-> | ->]; reflexivity.
Qed.

(** X4. Whatever the command code and the host, the normaliser keeps the
    size of the frame, never writes the two single-byte members of the setup
    packet (offsets 40 and 41) and never writes a byte of the data area and
    padding (offset 48 on). *)
Theorem usbip_ntoh_keeps_data (host : byte_order) (u : frame) :
  wf_frame u ->
  let u' := snd (usbip_ntoh host u) in
  length u' = length u /\
  (forall k, (k = 40 \/ k = 41 \/ 48 <= k)%nat -> nth_error u' k = nth_error u k).
Proof.
  intros Hwf u'. apply wf_frame_length in Hwf. subst u'. split.
  - now apply length_usbip_ntoh.
  - intros k Hk. apply nth_error_usbip_ntoh; [assumption |].
    destruct Hk as [Hk | [Hk | Hk]];
      auto using outside_layout_data, outside_layout_setup_bytes.
Qed.

Lemma usbip_ntoh_keeps_data_witness :
  length (snd (usbip_ntoh LITTLE_ENDIAN submit_frame)) = length submit_frame /\
  (forall k, (k = 40 \/ k = 41 \/ 48 <= k)%nat ->
     nth_error (snd (usbip_ntoh LITTLE_ENDIAN submit_frame)) k =
     nth_error submit_frame k).
Proof.
  apply (usbip_ntoh_keeps_data LITTLE_ENDIAN submit_frame).
  vm_compute. reflexivity.
Defined.

(** X5. For an unlink command and an unlink reply the one payload member,
    [cmd.unlink.seqnum] resp. [ret.unlink.status], holds after the
    normaliser the integer its four wire bytes denote in big-endian order,
    and the status is 0. *)
Theorem usbip_ntoh_unlink_value (host : byte_order) (u : frame) :
  wf_frame u ->
  (wire_command u = USBIP_CMD_UNLINK ->
   fst (usbip_ntoh host u) = 0 /\
   rd host cmd_unlink_seqnum (snd (usbip_ntoh host u)) =
     be_combine (bytes cmd_unlink_seqnum u)) /\
  (wire_command u = USBIP_RET_UNLINK ->
   fst (usbip_ntoh host u) = 0 /\
   rd host ret_unlink_status (snd (usbip_ntoh host u)) =
     be_combine (bytes ret_unlink_status u)).
Proof.
  intros Hwf. apply wf_frame_length in Hwf. split; intros Hc; split.
  - rewrite fst_usbip_ntoh by assumption. now rewrite Hc.
  - apply (rd_usbip_ntoh host u _ BIG_ENDIAN Hwf). in_layout.
  - rewrite fst_usbip_ntoh by assumption. now rewrite Hc.
  - apply (rd_usbip_ntoh host u _ BIG_ENDIAN Hwf). in_layout.
Qed.

Lemma usbip_ntoh_unlink_value_witness :
  fst (usbip_ntoh LITTLE_ENDIAN unlink_frame) = 0 /\
  rd LITTLE_ENDIAN cmd_unlink_seqnum (snd (usbip_ntoh LITTLE_ENDIAN unlink_frame)) =
    be_combine (bytes cmd_unlink_seqnum unlink_frame).
Proof.
  destruct (usbip_ntoh_unlink_value LITTLE_ENDIAN unlink_frame) as [H _].
  - vm_compute. reflexivity.
  - apply H. vm_compute. reflexivity.
Defined.

Lemma untouched_little_endian k c :
  (40 <= k)%nat -> untouched LITTLE_ENDIAN k (layout c) = true.
Proof.
  intros Hk. unfold layout, payload_layout.
  repeat match goal with |- context [if ?b then _ else _] => destruct b end;
    cbn [header_layout cmd_submit_layout ret_submit_layout app untouched
         forallb fst snd byte_order_eqb orb];
    ends_before.
Qed.

Lemma untouched_big_endian k c :
  (k < 42 \/ 48 <= k)%nat -> untouched BIG_ENDIAN k (layout c) = true.
Proof.
  intros Hk. unfold layout, payload_layout.
  repeat match goal with |- context [if ?b then _ else _] => destruct b end;
    cbn [header_layout cmd_submit_layout ret_submit_layout app untouched
         forallb fst snd byte_order_eqb orb];
    repeat (apply andb_true_intro; split); try reflexivity;
    destruct Hk as [Hk | Hk];
    first [ apply orb_true_iff; left; apply Nat.ltb_lt; simpl; lia
          | apply orb_true_iff; right; apply Nat.leb_le; simpl; lia ].
Qed.

Lemma untouched_big_endian_other k c :
  c <> USBIP_CMD_SUBMIT -> c <> USBIP_RET_SUBMIT ->
  untouched BIG_ENDIAN k (layout c) = true.
Proof.
  intros H1 H3. unfold layout, payload_layout.
  destruct (Z.eqb_spec c USBIP_CMD_SUBMIT); [contradiction |].
  destruct (c =? USBIP_CMD_UNLINK); [reflexivity |].
  destruct (Z.eqb_spec c USBIP_RET_SUBMIT); [contradiction |].
  destruct (c =? USBIP_RET_UNLINK); reflexivity.
Qed.

(** X6. On a little-endian host the normaliser writes nothing from offset
    40 on, whatever the command code: the whole setup packet, [wValue],
    [wIndex] and [wLength] included, stays byte for byte as received. *)
Theorem usbip_ntoh_little_endian_setup (u : frame) :
  wf_frame u ->
  forall k, (40 <= k)%nat ->
    nth_error (snd (usbip_ntoh LITTLE_ENDIAN u)) k = nth_error u k.
Proof.
  intros Hwf k Hk. apply wf_frame_length in Hwf.
  rewrite usbip_ntoh_spec by assumption. cbn [snd].
  apply (nth_error_swabs_untouched LITTLE_ENDIAN 48);
    auto using layout_within, untouched_little_endian.
Qed.

Lemma usbip_ntoh_little_endian_setup_witness :
  wf_frame submit_frame /\
  nth_error (snd (usbip_ntoh LITTLE_ENDIAN submit_frame)) 42 =
  nth_error submit_frame 42.
Proof.
  assert (Hwf : wf_frame submit_frame) by (vm_compute; reflexivity).
  split; [exact Hwf |].
  apply (usbip_ntoh_little_endian_setup submit_frame Hwf 42%nat). lia.
Defined.

(** X7. On a big-endian host the normaliser changes nothing but the six
    bytes of [wValue], [wIndex] and [wLength] of a submit message, whose two
    bytes each it exchanges; a frame of any other command code comes back
    unchanged. *)
Theorem usbip_ntoh_big_endian_bytes (u : frame) :
  wf_frame u ->
  let u' := snd (usbip_ntoh BIG_ENDIAN u) in
  (forall k, (k < 42 \/ 48 <= k)%nat -> nth_error u' k = nth_error u k) /\
  (wire_command u <> USBIP_CMD_SUBMIT -> wire_command u <> USBIP_RET_SUBMIT ->
   u' = u) /\
  (wire_command u = USBIP_CMD_SUBMIT \/ wire_command u = USBIP_RET_SUBMIT ->
   forall f,
     In f [cmd_submit_setup_wValue; cmd_submit_setup_wIndex; cmd_submit_setup_wLength] ->
     bytes f u' = rev (bytes f u)).
Proof.
  intros Hwf u'. apply wf_frame_length in Hwf. subst u'.
  split; [| split].
  - intros k Hk. rewrite usbip_ntoh_spec by assumption. cbn [snd].
    apply (nth_error_swabs_untouched BIG_ENDIAN 48);
      auto using layout_within, untouched_big_endian.
  - intros H1 H3. apply nth_error_ext. intros k.
    rewrite usbip_ntoh_spec by assumption. cbn [snd].
    apply (nth_error_swabs_untouched BIG_ENDIAN 48);
      auto using layout_within, untouched_big_endian_other.
  - intros Hc f Hin.
    rewrite (bytes_usbip_ntoh BIG_ENDIAN u f LITTLE_ENDIAN Hwf); [reflexivity |].
    simpl in Hin.
    destruct Hc as [Hc | Hc]; decompose [or] Hin; try contradiction; subst f;
      in_layout.
Qed.

Lemma usbip_ntoh_big_endian_bytes_witness :
  bytes cmd_submit_setup_wValue (snd (usbip_ntoh BIG_ENDIAN submit_frame)) =
    rev (bytes cmd_submit_setup_wValue submit_frame).
Proof.
  destruct (usbip_ntoh_big_endian_bytes submit_frame) as (_ & _ & H).
  - vm_compute. reflexivity.
  - apply H; [left; vm_compute; reflexivity | simpl; tauto].
Defined.

(** ** Receiving *)

Lemma length_usbip_zero : length usbip_zero = Z.to_nat sizeof_usbip.
Proof. apply repeat_length. Qed.

Lemma nth_error_usbip_zero k :
  nth_error usbip_zero k =
  if (k <? Z.to_nat sizeof_usbip)%nat then Some Byte.x00 else None.
Proof.
  unfold usbip_zero. destruct (Nat.ltb_spec k (Z.to_nat sizeof_usbip)).
  - now apply nth_error_repeat.
  - apply nth_error_None. now rewrite repeat_length.
Qed.

Lemma nth_error_recv dgram k :
  nth_error (recv dgram usbip_zero) k =
  if (k <? Z.to_nat sizeof_usbip)%nat
  then if (k <? length dgram)%nat then nth_error dgram k else Some Byte.x00
  else None.
Proof.
  unfold recv. rewrite nth_error_upds, nth_error_usbip_zero, length_usbip_zero.
  generalize (Z.to_nat sizeof_usbip). intros N.
  cases_nat; try lia; try reflexivity. f_equal. lia.
Qed.

(** X8. A datagram shorter than the frame is received exactly as if it had
    been followed by zero bytes: the frame, and with it the result of
    [decode], is the same whether or not zero bytes are appended to the
    datagram. *)
Theorem decode_zero_padded (host : byte_order) (dgram : list byte) (n : nat) :
  recv (dgram ++ repeat Byte.x00 n) usbip_zero = recv dgram usbip_zero /\
  decode host (dgram ++ repeat Byte.x00 n) = decode host dgram.
Proof.
  assert (H : recv (dgram ++ repeat Byte.x00 n) usbip_zero = recv dgram usbip_zero).
  { apply nth_error_ext. intros k. rewrite !nth_error_recv.
    rewrite length_app, repeat_length, nth_error_app.
    generalize (Z.to_nat sizeof_usbip). intros N.
    cases_nat; try lia; try reflexivity.
    apply nth_error_repeat. lia. }
  split; [exact H |]. unfold decode. now rewrite H.
Qed.

(** X9. Whatever its length, a datagram leaves a whole frame behind, and
    bytes beyond [sizeof(struct usbip)] are dropped: the frame, and with it
    the result of [decode], depends on the first 65536 bytes only. *)
Theorem decode_oversized (host : byte_order) (dgram : list byte) :
  wf_frame (recv dgram usbip_zero) /\
  recv dgram usbip_zero = recv (firstn (Z.to_nat sizeof_usbip) dgram) usbip_zero /\
  decode host dgram = decode host (firstn (Z.to_nat sizeof_usbip) dgram).
Proof.
  assert (H : recv dgram usbip_zero =
              recv (firstn (Z.to_nat sizeof_usbip) dgram) usbip_zero).
  { apply nth_error_ext. intros k. rewrite !nth_error_recv.
    rewrite length_firstn, nth_error_firstn.
    generalize (Z.to_nat sizeof_usbip). intros N.
    cases_nat; try lia; reflexivity. }
  split; [apply wf_recv |]. split; [exact H |].
  unfold decode. now rewrite <- H.
Qed.

(** ** What the dump depends on *)

Lemma data_rows_ext u1 u2 n i :
  0 <= i ->
  (forall k, (data_offset + Z.to_nat i <= k < data_offset + Z.to_nat i + n)%nat ->
     nth_error u1 k = nth_error u2 k) ->
  data_rows u1 n i = data_rows u2 n i.
Proof.
  revert i. induction n as [|n IH]; intros i Hi H; cbn [data_rows]; [reflexivity |].
  rewrite <- H by lia.
  destruct (nth_error u1 (data_offset + Z.to_nat i)); [| reflexivity].
  f_equal. apply IH; [lia |]. intros k Hk. apply H. lia.
Qed.

(** The text depends on the printed members and on the data bytes the loop
    reads, on nothing else. *)
Lemma usbip_dump_ext h1 h2 u1 u2 f :
  (forall fl, In fl (printed_fields (rd h1 command u1)) ->
     rd h1 fl u1 = rd h2 fl u2) ->
  (forall k, (data_offset <= k < data_offset + Z.to_nat (declared_length h1 u1))%nat ->
     nth_error u1 k = nth_error u2 k) ->
  usbip_dump h1 u1 f = usbip_dump h2 u2 f.
Proof.
  intros Hf Hd.
  assert (Hc : rd h1 command u1 = rd h2 command u2)
    by (apply Hf, in_or_app; simpl; tauto).
  unfold usbip_dump. cbv zeta. rewrite !dump_data_rows.
  unfold declared_length in Hd. unfold printed_fields in Hf.
  rewrite <- !Hc.
  destruct (rd h1 command u1 =? USBIP_CMD_SUBMIT);
    [| destruct (rd h1 command u1 =? USBIP_CMD_UNLINK);
       [| destruct (rd h1 command u1 =? USBIP_RET_SUBMIT);
          [| destruct (rd h1 command u1 =? USBIP_RET_UNLINK)]]].
  - rewrite <- !(Hf cmd_submit_transfer_flags),
            <- !(Hf cmd_submit_transfer_buffer_length),
            <- !(Hf cmd_submit_start_frame),
            <- !(Hf cmd_submit_number_of_packets),
            <- !(Hf cmd_submit_interval),
            <- !(Hf cmd_submit_setup_bmRequestType),
            <- !(Hf cmd_submit_setup_bRequest),
            <- !(Hf cmd_submit_setup_wValue),
            <- !(Hf cmd_submit_setup_wIndex),
            <- !(Hf cmd_submit_setup_wLength),
            <- !(Hf seqnum), <- !(Hf devid), <- !(Hf direction), <- !(Hf endpoint)
      by (apply in_or_app; simpl; tauto).
    now rewrite (data_rows_ext u1 u2) by (try lia; exact Hd).
  - now rewrite <- !(Hf cmd_unlink_seqnum),
                <- !(Hf seqnum), <- !(Hf devid), <- !(Hf direction), <- !(Hf endpoint)
      by (apply in_or_app; simpl; tauto).
  - rewrite <- !(Hf ret_submit_status),
            <- !(Hf ret_submit_actual_length),
            <- !(Hf ret_submit_start_frame),
            <- !(Hf ret_submit_number_of_packets),
            <- !(Hf ret_submit_error_count),
            <- !(Hf ret_submit_setup_bmRequestType),
            <- !(Hf ret_submit_setup_bRequest),
            <- !(Hf ret_submit_setup_wValue),
            <- !(Hf ret_submit_setup_wIndex),
            <- !(Hf ret_submit_setup_wLength),
            <- !(Hf seqnum), <- !(Hf devid), <- !(Hf direction), <- !(Hf endpoint)
      by (apply in_or_app; simpl; tauto).
    now rewrite (data_rows_ext u1 u2) by (try lia; exact Hd).
  - now rewrite <- !(Hf ret_unlink_status),
                <- !(Hf seqnum), <- !(Hf devid), <- !(Hf direction), <- !(Hf endpoint)
      by (apply in_or_app; simpl; tauto).
  - now rewrite <- !(Hf seqnum), <- !(Hf devid), <- !(Hf direction), <- !(Hf endpoint)
      by (apply in_or_app; simpl; tauto).
Qed.

Lemma printed_fields_within c fl :
  In fl (printed_fields c) -> (offset fl + size fl <= 48)%nat.
Proof.
  unfold printed_fields. intros Hin. apply in_app_or in Hin.
  destruct Hin as [Hin | Hin].
  - simpl in Hin. decompose [or] Hin; try contradiction; subst fl; simpl; lia.
  - revert Hin.
    repeat match goal with |- context [if ?b then _ else _] => destruct b end;
      intros Hin; simpl in Hin; decompose [or] Hin; try contradiction;
      subst fl; simpl; lia.
Qed.

Lemma nth_error_prefix (u1 u2 : frame) m k :
  firstn m u1 = firstn m u2 -> (k < m)%nat -> nth_error u1 k = nth_error u2 k.
Proof.
  intros H Hk. apply (f_equal (fun l => nth_error l k)) in H.
  rewrite !nth_error_firstn in H.
  now destruct (Nat.ltb_spec k m); [| lia].
Qed.

Lemma bytes_prefix (u1 u2 : frame) m fl :
  firstn m u1 = firstn m u2 -> (offset fl + size fl <= m)%nat ->
  bytes fl u1 = bytes fl u2.
Proof.
  intros H Hm. apply nth_error_ext. intros k. rewrite !nth_error_bytes.
  destruct (Nat.ltb_spec k (size fl)); [| reflexivity].
  apply (nth_error_prefix u1 u2 m); [assumption | lia].
Qed.

(** X10. [usbip_dump] looks at the 48 bytes of the fixed members and at the
    declared number of data bytes, at nothing else: two frames that agree on
    that prefix are dumped alike (both dumps fail or both give the same
    text), whatever follows in either. *)
Theorem usbip_dump_reads_prefix (host : byte_order) (u1 u2 : frame) (f : FILE) :
  firstn (data_offset + Z.to_nat (declared_length host u1)) u1 =
  firstn (data_offset + Z.to_nat (declared_length host u1)) u2 ->
  usbip_dump host u1 f = usbip_dump host u2 f.
Proof.
  intros H. apply usbip_dump_ext.
  - intros fl Hin. unfold rd. f_equal.
    apply (bytes_prefix u1 u2 _ fl H).
    apply printed_fields_within in Hin. unfold data_offset. lia.
  - intros k Hk. apply (nth_error_prefix u1 u2 _ k H). lia.
Qed.

Lemma usbip_dump_reads_prefix_witness :
  nth_error (snd (decode LITTLE_ENDIAN short_reply)) 112 <>
  nth_error (snd (decode LITTLE_ENDIAN long_reply)) 112 /\
  usbip_dump LITTLE_ENDIAN (snd (decode LITTLE_ENDIAN short_reply)) EmptyString =
  usbip_dump LITTLE_ENDIAN (snd (decode LITTLE_ENDIAN long_reply)) EmptyString.
Proof.
  split; [vm_compute; discriminate |].
  apply (usbip_dump_reads_prefix LITTLE_ENDIAN). vm_compute. reflexivity.
Defined.

(** ** From datagram to text *)

Lemma combine_single o o' (bs : list byte) :
  length bs = 1%nat -> combine o bs = combine o' bs.
Proof.
  intros H. destruct bs as [|b [|]]; try discriminate H.
  now destruct o, o'.
Qed.

Section Report.

Variable host : byte_order.

(** A single-byte member the rule table does not list is read back as it
    was received. *)
Lemma rd_usbip_ntoh_byte u fl :
  (48 <= length u)%nat -> size fl = 1%nat -> fits fl u ->
  outside (offset fl) (layout (wire_command u)) = true ->
  rd host fl (snd (usbip_ntoh host u)) = le_combine (bytes fl u).
Proof.
  intros Hn Hs Hf Ho.
  assert (Hb : bytes fl (snd (usbip_ntoh host u)) = bytes fl u).
  { apply nth_error_ext. intros k. rewrite !nth_error_bytes, Hs.
    destruct k as [|k]; [| reflexivity]. cbn [Nat.ltb Nat.leb].
    rewrite Nat.add_0_r. now apply nth_error_usbip_ntoh. }
  unfold rd. rewrite Hb.
  apply (combine_single host LITTLE_ENDIAN). rewrite <- Hs. now apply length_bytes.
Qed.

End Report.

Ltac wire_value u Hn :=
  first
    [ rewrite !(rd_usbip_ntoh _ u _ BIG_ENDIAN Hn) by in_layout; reflexivity
    | rewrite !(rd_usbip_ntoh _ u _ LITTLE_ENDIAN Hn) by in_layout; reflexivity
    | rewrite !rd_usbip_ntoh_byte
        by (try assumption; try reflexivity;
            try (unfold fits; simpl; lia);
            apply outside_layout_setup_bytes; simpl; tauto);
      reflexivity ].

Lemma usbip_ntoh_dump_host_independent (u : frame) (f : FILE) :
  (48 <= length u)%nat ->
  usbip_dump LITTLE_ENDIAN (snd (usbip_ntoh LITTLE_ENDIAN u)) f =
  usbip_dump BIG_ENDIAN (snd (usbip_ntoh BIG_ENDIAN u)) f.
Proof.
  intros Hn. apply usbip_dump_ext.
  - intros fl. rewrite rd_command_usbip_ntoh by assumption.
    unfold printed_fields. intros Hin. apply in_app_or in Hin.
    destruct Hin as [Hin | Hin].
    + simpl in Hin. decompose [or] Hin; try contradiction; subst fl;
        wire_value u Hn.
    + revert Hin.
      destruct (Z.eqb_spec (wire_command u) USBIP_CMD_SUBMIT) as [Hc | _];
        [| destruct (Z.eqb_spec (wire_command u) USBIP_CMD_UNLINK) as [Hc | _];
           [| destruct (Z.eqb_spec (wire_command u) USBIP_RET_SUBMIT) as [Hc | _];
              [| destruct (Z.eqb_spec (wire_command u) USBIP_RET_UNLINK) as [Hc | _]]]];
        intros Hin; simpl in Hin; decompose [or] Hin; try contradiction;
        subst fl; wire_value u Hn.
  - intros k Hk.
    rewrite !nth_error_usbip_ntoh
      by (try assumption; apply outside_layout_data; unfold data_offset in Hk; lia).
    reflexivity.
Qed.

(** X11. What [main] prints for a datagram does not depend on the byte order
    of the host it runs on: receiving, normalising and dumping give the same
    text (or fail alike) on a little-endian and on a big-endian host. *)
Theorem main_report_host_independent (dgram : list byte) (f : FILE) :
  main_report LITTLE_ENDIAN dgram f = main_report BIG_ENDIAN dgram f.
Proof.
  unfold main_report, decode.
  apply usbip_ntoh_dump_host_independent, wf_frame_length, wf_recv.
Qed.

Lemma usbip_dump_cmd_submit_beyond host u f :
  wf_frame u ->
  rd host command u = USBIP_CMD_SUBMIT ->
  padding_size < rd host cmd_submit_transfer_buffer_length u ->
  usbip_dump host u f = None.
Proof.
  unfold wf_frame, sizeof_usbip, padding_size. intros Hwf Hc Hn.
  unfold usbip_dump. cbv zeta. rewrite Hc.
  change (USBIP_CMD_SUBMIT =? USBIP_CMD_SUBMIT) with true. cbv iota.
  rewrite dump_data_rows, data_rows_beyond by (simpl; lia).
  reflexivity.
Qed.

(** X12. The room a frame has after its fixed members is the exact bound of
    the dumper: on a whole frame [usbip_dump] fails, by reading past the end
    of the object, exactly when the frame is a submit command or reply whose
    declared length exceeds 65488. *)
Theorem usbip_dump_fails_iff (host : byte_order) (u : frame) (f : FILE) :
  wf_frame u ->
  (usbip_dump host u f = None <-> padding_size < declared_length host u).
Proof.
  intros Hwf. unfold declared_length.
  destruct (Z.eqb_spec (rd host command u) USBIP_CMD_SUBMIT) as [H1 | H1].
  - destruct (Z_le_gt_dec (rd host cmd_submit_transfer_buffer_length u) padding_size)
      as [Hle | Hgt].
    + rewrite usbip_dump_cmd_submit by assumption. split; [discriminate | lia].
    + split; [lia |]. intros _. apply usbip_dump_cmd_submit_beyond; (assumption || lia).
  - destruct (Z.eqb_spec (rd host command u) USBIP_RET_SUBMIT) as [H3 | H3].
    + destruct (Z_le_gt_dec (rd host ret_submit_actual_length u) padding_size)
        as [Hle | Hgt].
      * rewrite usbip_dump_ret_submit by assumption. split; [discriminate | lia].
      * split; [lia |]. intros _. apply usbip_dump_ret_submit_beyond; (assumption || lia).
    + split.
      * intros H. now apply usbip_dump_other in H.
      * unfold padding_size. lia.
Qed.

Lemma usbip_dump_fails_iff_witness :
  usbip_dump LITTLE_ENDIAN (snd (decode LITTLE_ENDIAN short_reply)) EmptyString = None <->
  padding_size < declared_length LITTLE_ENDIAN (snd (decode LITTLE_ENDIAN short_reply)).
Proof.
  apply (usbip_dump_fails_iff LITTLE_ENDIAN). vm_compute. reflexivity.
Defined.

(** X13. [main] dumps a frame it could not normalise: for a datagram whose
    command code is unknown the status [ENOTSUP] is dropped and the text
    written is the five header lines, showing the integers the wire bytes
    denote in big-endian order, between the two braces. *)
Theorem main_report_unknown (host : byte_order) (dgram : list byte) (f : FILE) :
  known_command (wire_command (recv dgram usbip_zero)) = false ->
  fst (decode host dgram) = ENOTSUP /\
  main_report host dgram f =
    Some (text
      [ f;
        sprintf "{\n" [];
        sprintf "  .command = %u\n"   [Int (wire_command (recv dgram usbip_zero))];
        sprintf "  .seqnum = %u\n"    [Int (be_combine (bytes seqnum (recv dgram usbip_zero)))];
        sprintf "  .devid = %u\n"     [Int (be_combine (bytes devid (recv dgram usbip_zero)))];
        sprintf "  .direction = %u\n" [Int (be_combine (bytes direction (recv dgram usbip_zero)))];
        sprintf "  .endpoint = %u\n"  [Int (be_combine (bytes endpoint (recv dgram usbip_zero)))];
        sprintf "}\n" [] ]).
Proof.
  unfold main_report, decode. pose proof (wf_recv dgram) as Hwf.
  revert Hwf. generalize (recv dgram usbip_zero). intros u Hwf Hk.
  apply wf_frame_length in Hwf. split.
  - rewrite fst_usbip_ntoh by assumption. now rewrite Hk.
  - unfold usbip_dump. cbv zeta.
    rewrite rd_command_usbip_ntoh by assumption.
    revert Hk. unfold known_command. rewrite !orb_false_iff.
    intros [[[-> ->] ->] ->].
    rewrite !(rd_usbip_ntoh host u _ BIG_ENDIAN Hwf) by in_layout.
    flatten_text. reflexivity.
Qed.

Lemma main_report_unknown_witness :
  fst (decode LITTLE_ENDIAN unknown_dgram) = ENOTSUP /\
  main_report LITTLE_ENDIAN unknown_dgram EmptyString =
    Some (text
      [ EmptyString;
        sprintf "{\n" [];
        sprintf "  .command = %u\n"   [Int (wire_command (recv unknown_dgram usbip_zero))];
        sprintf "  .seqnum = %u\n"    [Int (be_combine (bytes seqnum (recv unknown_dgram usbip_zero)))];
        sprintf "  .devid = %u\n"     [Int (be_combine (bytes devid (recv unknown_dgram usbip_zero)))];
        sprintf "  .direction = %u\n" [Int (be_combine (bytes direction (recv unknown_dgram usbip_zero)))];
        sprintf "  .endpoint = %u\n"  [Int (be_combine (bytes endpoint (recv unknown_dgram usbip_zero)))];
        sprintf "}\n" [] ]).
Proof.
  apply (main_report_unknown LITTLE_ENDIAN unknown_dgram EmptyString).
  vm_compute. reflexivity.
Defined.

(** ** The shape of the data rows *)

Lemma length_append (s t : string) :
  String.length (String.append s t) = (String.length s + String.length t)%nat.
Proof. induction s as [|c s IH]; cbn [String.append String.length]; [reflexivity | now rewrite IH]. Qed.

Lemma sprintf_row s b :
  sprintf "%s%02x" [Str s; Int (byte.unsigned b)] =
  String.append s (String.append (pad0 2 (hex (byte.unsigned b mod 2 ^ 32))) EmptyString).
Proof. reflexivity. Qed.

(** Every byte comes out as exactly two digits. *)
Lemma length_hex_byte b :
  String.length (pad0 2 (hex (byte.unsigned b mod 2 ^ 32))) = 2%nat.
Proof. destruct b; reflexivity. Qed.

Lemma row_break i :
  0 <= i ->
  (i + 1 + 31) / 32 = (i + 31) / 32 + (if i mod 32 =? 0 then 1 else 0).
Proof.
  intros Hi. destruct (Z.eqb_spec (i mod 32) 0); Z.div_mod_to_equations; lia.
Qed.

Lemma length_hex_rows i bs :
  0 <= i ->
  Z.of_nat (String.length (hex_rows i bs)) =
    2 * Z.of_nat (length bs)
    + 5 * ((i + Z.of_nat (length bs) + 31) / 32 - (i + 31) / 32).
Proof.
  revert i. induction bs as [|b bs IH]; intros i Hi.
  - cbn [hex_rows String.length length]. rewrite Z.add_0_r. lia.
  - cbn [hex_rows]. rewrite sprintf_row, !length_append, length_hex_byte.
    rewrite !Nat2Z.inj_add, IH by lia.
    cbn [length]. rewrite Nat2Z.inj_succ.
    replace (i + 1 + Z.of_nat (length bs) + 31)
      with (i + Z.succ (Z.of_nat (length bs)) + 31) by lia.
    rewrite (row_break i Hi).
    destruct (i mod 32 =? 0).
    + change (String.length (cstr "\n    ")) with 5%nat.
      change (String.length EmptyString) with 0%nat. lia.
    + change (String.length EmptyString) with 0%nat. lia.
Qed.

(** X14. The data loop writes two hex digits for every byte and starts a new
    row, a newline and four spaces, before every thirty-second byte: run for
    [n] bytes that lie inside the frame it succeeds and appends exactly
    [2 n + 5 * ceil (n / 32)] characters to the stream. *)
Theorem dump_data_length (u : frame) (n : nat) (f : FILE) :
  wf_frame u ->
  Z.of_nat n <= padding_size ->
  exists g,
    dump_data u n 0 f = Some g /\
    Z.of_nat (String.length g) =
      Z.of_nat (String.length f) + 2 * Z.of_nat n + 5 * ((Z.of_nat n + 31) / 32).
Proof.
  unfold wf_frame, sizeof_usbip, padding_size. intros Hwf Hn.
  rewrite dump_data_rows, data_rows_within by (simpl; lia).
  cbn [option_map]. eexists. split; [reflexivity |].
  rewrite length_append, Nat2Z.inj_add, length_hex_rows by lia.
  rewrite length_firstn, length_skipn.
  replace (Z.of_nat (Nat.min n (length u - (data_offset + Z.to_nat 0))))
    with (Z.of_nat n) by (unfold data_offset; lia).
  change ((0 + 31) / 32) with 0. rewrite Z.add_0_l. lia.
Qed.

Lemma dump_data_length_witness :
  exists g,
    dump_data submit_frame 33 0 EmptyString = Some g /\
    Z.of_nat (String.length g) =
      Z.of_nat (String.length EmptyString) + 2 * Z.of_nat 33 + 5 * ((Z.of_nat 33 + 31) / 32).
Proof.
  apply (dump_data_length submit_frame 33 EmptyString).
  - vm_compute. reflexivity.
  - vm_compute. discriminate.
Defined.

(** ** What the setup labels depend on *)

Lemma SETUP_DIR_of_RCP rt : SETUP_DIR rt = Z.land (SETUP_RCP rt) 1.
Proof. unfold SETUP_DIR, SETUP_RCP. now rewrite <- Z.land_assoc. Qed.

Lemma SETUP_TYP_of_RCP rt : SETUP_TYP rt = Z.land (SETUP_RCP rt) 3.
Proof. unfold SETUP_TYP, SETUP_RCP. now rewrite <- Z.land_assoc. Qed.

Lemma SETUP_RCP_idem rt : SETUP_RCP (Z.land rt 0x1f) = SETUP_RCP rt.
Proof. unfold SETUP_RCP. now rewrite <- Z.land_assoc. Qed.

(** X15. Bits 7 to 5 of the request-type byte reach none of the three
    labels: the direction, type and recipient labels of a byte are those of
    its low five bits, so two bytes that agree on bits 4 to 0 are labelled
    alike. *)
Theorem setup_labels_ignore_high_bits (rt rt' : Z) :
  (usbip_setup_dir_str rt = usbip_setup_dir_str (Z.land rt 0x1f) /\
   usbip_setup_typ_str rt = usbip_setup_typ_str (Z.land rt 0x1f) /\
   usbip_setup_rcp_str rt = usbip_setup_rcp_str (Z.land rt 0x1f)) /\
  (Z.land rt 0x1f = Z.land rt' 0x1f ->
   usbip_setup_dir_str rt = usbip_setup_dir_str rt' /\
   usbip_setup_typ_str rt = usbip_setup_typ_str rt' /\
   usbip_setup_rcp_str rt = usbip_setup_rcp_str rt').
Proof.
  assert (H : forall a,
    usbip_setup_dir_str a = usbip_setup_dir_str (Z.land a 0x1f) /\
    usbip_setup_typ_str a = usbip_setup_typ_str (Z.land a 0x1f) /\
    usbip_setup_rcp_str a = usbip_setup_rcp_str (Z.land a 0x1f)).
  { intros a. unfold usbip_setup_dir_str, usbip_setup_typ_str, usbip_setup_rcp_str.
    rewrite (SETUP_DIR_of_RCP (Z.land a 0x1f)), (SETUP_TYP_of_RCP (Z.land a 0x1f)),
      SETUP_RCP_idem, <- SETUP_DIR_of_RCP, <- SETUP_TYP_of_RCP.
    repeat split. }
  split; [apply H |].
  intros He. destruct (H rt) as (-> & -> & ->), (H rt') as (-> & -> & ->).
  now rewrite He.
Qed.

Lemma setup_labels_ignore_high_bits_witness :
  usbip_setup_dir_str 0x80 = usbip_setup_dir_str 0x00 /\
  usbip_setup_typ_str 0x80 = usbip_setup_typ_str 0x00 /\
  usbip_setup_rcp_str 0x80 = usbip_setup_rcp_str 0x00.
Proof.
  apply (setup_labels_ignore_high_bits 0x80 0x00). reflexivity.
Defined.

Lemma usbip_setup_rcp_str_inv rt :
  (usbip_setup_rcp_str rt = "device"%string -> SETUP_RCP rt = 0) /\
  (usbip_setup_rcp_str rt = "interface"%string -> SETUP_RCP rt = 1) /\
  (usbip_setup_rcp_str rt = "endpoint"%string -> SETUP_RCP rt = 2) /\
  (usbip_setup_rcp_str rt = "other"%string -> SETUP_RCP rt = 3).
Proof.
  unfold usbip_setup_rcp_str.
  destruct (SETUP_RCP rt) as [|p|p];
    [| destruct p as [[p|p|]|[p|p|]|] |];
    repeat split; intros H; (reflexivity || discriminate H).
Qed.

(** X16. The recipient label settles the other two: a byte labelled
    ["device"] is labelled ["standard"] and ["H2D"], one labelled
    ["interface"] is labelled ["class"] and ["D2H"], one labelled
    ["endpoint"] is labelled ["vendor"] and ["H2D"], and one labelled
    ["other"] has the type ["<reserved>"] and the direction ["D2H"]; no other
    combination with these recipients is ever reported. *)
Theorem setup_labels_follow_recipient (rt : Z) :
  (usbip_setup_rcp_str rt = "device"%string ->
   usbip_setup_typ_str rt = "standard"%string /\
   usbip_setup_dir_str rt = "H2D"%string) /\
  (usbip_setup_rcp_str rt = "interface"%string ->
   usbip_setup_typ_str rt = "class"%string /\
   usbip_setup_dir_str rt = "D2H"%string) /\
  (usbip_setup_rcp_str rt = "endpoint"%string ->
   usbip_setup_typ_str rt = "vendor"%string /\
   usbip_setup_dir_str rt = "H2D"%string) /\
  (usbip_setup_rcp_str rt = "other"%string ->
   usbip_setup_typ_str rt = "<reserved>"%string /\
   usbip_setup_dir_str rt = "D2H"%string).
Proof.
  destruct (usbip_setup_rcp_str_inv rt) as (H0 & H1 & H2 & H3).
  unfold usbip_setup_typ_str, usbip_setup_dir_str.
  rewrite SETUP_TYP_of_RCP, SETUP_DIR_of_RCP.
  split; [| split; [| split]]; intros H;
    [ rewrite (H0 H) | rewrite (H1 H) | rewrite (H2 H) | rewrite (H3 H) ];
    split; reflexivity.
Qed.

Lemma setup_labels_follow_recipient_witness :
  usbip_setup_typ_str 0x81 = "class"%string /\
  usbip_setup_dir_str 0x81 = "D2H"%string.
Proof.
  destruct (setup_labels_follow_recipient 0x81) as (_ & H & _).
  apply H. reflexivity.
Defined.

(** X17. The names of the request codes are pairwise distinct: two named
    codes with the same label are the same code, so a printed name other
    than ["<reserved>"] identifies the code. *)
Theorem usbip_setup_req_str_injective (a b : Z) :
  In a named_requests -> In b named_requests ->
  usbip_setup_req_str a = usbip_setup_req_str b ->
  a = b.
Proof.
  unfold named_requests. intros Ha Hb H.
  simpl in Ha. decompose [or] Ha; try contradiction; subst a;
    simpl in Hb; decompose [or] Hb; try contradiction; subst b;
    (reflexivity || discriminate H).
Qed.

Lemma usbip_setup_req_str_injective_witness : 6 = 6.
Proof.
  apply (usbip_setup_req_str_injective 6 6); [simpl; tauto | simpl; tauto | reflexivity].
Defined.

(** ** The payload of a datagram in the dump *)

Lemma skipn_usbip_ntoh host u :
  (48 <= length u)%nat ->
  skipn data_offset (snd (usbip_ntoh host u)) = skipn data_offset u.
Proof.
  intros Hn. apply nth_error_ext. intros k. rewrite !nth_error_skipn.
  apply nth_error_usbip_ntoh; [assumption |].
  apply outside_layout_data. unfold data_offset. lia.
Qed.

(** The first [n] bytes of the data area of a received frame are the bytes
    the datagram carries from offset 48 on, then zeros. *)
Lemma firstn_data_recv dgram n :
  Z.of_nat n <= padding_size ->
  firstn n (skipn data_offset (recv dgram usbip_zero)) =
  firstn n (skipn data_offset dgram ++ repeat Byte.x00 n).
Proof.
  unfold padding_size. intros Hn. apply nth_error_ext. intros k.
  rewrite !nth_error_firstn, nth_error_skipn, nth_error_recv, nth_error_app,
    nth_error_skipn, length_skipn.
  assert (HN : Z.of_nat (Z.to_nat sizeof_usbip) = 65536)
    by (unfold sizeof_usbip, padding_size; lia).
  revert HN. generalize (Z.to_nat sizeof_usbip). intros N HN.
  unfold data_offset.
  cases_nat; try lia; try reflexivity.
  symmetry. apply nth_error_repeat. lia.
Qed.

(** X18. For a submit command or reply whose declared length is at most
    65488, [main] prints, after the lines of the fixed members, the hex rows
    of exactly the declared number of bytes: those the datagram carries from
    offset 48 on, followed by zeros for the ones it declares and does not
    carry. *)
Theorem main_report_data (host : byte_order) (dgram : list byte) (f : FILE) :
  (wire_command (recv dgram usbip_zero) = USBIP_CMD_SUBMIT ->
   forall n,
     be_combine (bytes cmd_submit_transfer_buffer_length (recv dgram usbip_zero)) =
       Z.of_nat n ->
     Z.of_nat n <= padding_size ->
     main_report host dgram f =
       Some (text [ f;
                    header_text host (snd (decode host dgram));
                    cmd_submit_text host (snd (decode host dgram));
                    hex_rows 0 (firstn n (skipn data_offset dgram ++ repeat Byte.x00 n));
                    sprintf "\n  }\n" []; sprintf "}\n" [] ])) /\
  (wire_command (recv dgram usbip_zero) = USBIP_RET_SUBMIT ->
   forall n,
     be_combine (bytes ret_submit_actual_length (recv dgram usbip_zero)) =
       Z.of_nat n ->
     Z.of_nat n <= padding_size ->
     main_report host dgram f =
       Some (text [ f;
                    header_text host (snd (decode host dgram));
                    ret_submit_text host (snd (decode host dgram));
                    hex_rows 0 (firstn n (skipn data_offset dgram ++ repeat Byte.x00 n));
                    sprintf "\n  }\n" []; sprintf "}\n" [] ])).
Proof.
  split; intros Hc n Hl Hn; rewrite <- (firstn_data_recv dgram n Hn);
    unfold main_report, decode; pose proof (wf_recv dgram) as Hwf;
    revert Hwf Hc Hl; generalize (recv dgram usbip_zero); intros u Hwf Hc Hl;
    pose proof (wf_frame_length u Hwf) as H48;
    rewrite <- (skipn_usbip_ntoh host u H48).
  - assert (Hd : rd host cmd_submit_transfer_buffer_length (snd (usbip_ntoh host u)) =
                 Z.of_nat n)
      by (rewrite <- Hl; apply (rd_usbip_ntoh host u _ BIG_ENDIAN H48); in_layout).
    rewrite <- (Nat2Z.id n) at 1. rewrite <- Hd.
    apply usbip_dump_cmd_submit.
    + unfold wf_frame. now rewrite length_usbip_ntoh.
    + now rewrite rd_command_usbip_ntoh.
    + now rewrite Hd.
  - assert (Hd : rd host ret_submit_actual_length (snd (usbip_ntoh host u)) =
                 Z.of_nat n)
      by (rewrite <- Hl; apply (rd_usbip_ntoh host u _ BIG_ENDIAN H48); in_layout).
    rewrite <- (Nat2Z.id n) at 1. rewrite <- Hd.
    apply usbip_dump_ret_submit.
    + unfold wf_frame. now rewrite length_usbip_ntoh.
    + now rewrite rd_command_usbip_ntoh.
    + now rewrite Hd.
Qed.

Lemma main_report_data_witness :
  main_report LITTLE_ENDIAN short_reply EmptyString =
    Some (text [ EmptyString;
                 header_text LITTLE_ENDIAN (snd (decode LITTLE_ENDIAN short_reply));
                 ret_submit_text LITTLE_ENDIAN (snd (decode LITTLE_ENDIAN short_reply));
                 hex_rows 0 (firstn 64 (skipn data_offset short_reply ++ repeat Byte.x00 64));
                 sprintf "\n  }\n" []; sprintf "}\n" [] ]).
Proof.
  destruct (main_report_data LITTLE_ENDIAN short_reply EmptyString) as [_ H].
  apply (H ltac:(vm_compute; reflexivity) 64%nat);
    [vm_compute; reflexivity | vm_compute; discriminate].
Defined.

(** ** Dumping the same frame again *)





